(** * Lead-Score.py: shallow embedding of the report-generation core

    Python strings are modelled as [String.string] (one [ascii] per
    character; the Dutch labels containing a diaeresis are kept as their
    UTF-8 bytes, which only matters for equality of labels).  A JSON
    payload decoded by Flask is a Python dict; it is modelled as an
    association list whose first binding of a key is the one the dict
    holds.  Python exceptions are modelled by the [result] type below. *)

From Stdlib Require Import ZArith QArith Qround String Ascii List Bool Lia.
From Stdlib Require Import DecimalString.
Import ListNotations.
Open Scope string_scope.

(** ** Python values and exceptions *)

Inductive pyexc : Type :=
| ValueError
| TypeError.

Inductive result (A : Type) : Type :=
| Ok : A -> result A
| Err : pyexc -> result A.
Arguments Ok {A} _.
Arguments Err {A} _.

Definition bind {A B} (m : result A) (k : A -> result B) : result B :=
  match m with
  | Ok a => k a
  | Err e => Err e
  end.

Notation "x <- m ;; k" := (bind m (fun x => k))
  (at level 61, m at next level, right associativity).

(** JSON values as Python sees them after [request.get_json()]. *)
Inductive pyval : Type :=
| VStr : string -> pyval
| VInt : Z -> pyval
| VFloat : Q -> pyval
| VBool : bool -> pyval
| VNone : pyval
| VOther : pyval.  (* a JSON list or object *)

Definition payload := list (string * pyval).

(** [payload.get(key)] / [payload[key]]. *)
Fixpoint lookup (k : string) (p : payload) : option pyval :=
  match p with
  | [] => None
  | (k', v) :: r => if String.eqb k k' then Some v else lookup k r
  end.

(** ** Characters and small string functions *)

(** [str.isspace] on the ASCII range. *)
Definition is_space (c : ascii) : bool :=
  let n := nat_of_ascii c in
  (((9 <=? n) && (n <=? 13)) || ((28 <=? n) && (n <=? 32)))%nat.

Definition is_digit (c : ascii) : bool :=
  let n := nat_of_ascii c in ((48 <=? n) && (n <=? 57))%nat.

Definition digit_val (c : ascii) : Z := Z.of_nat (nat_of_ascii c - 48)%nat.

Fixpoint lstrip (s : string) : string :=
  match s with
  | EmptyString => EmptyString
  | String c r => if is_space c then lstrip r else s
  end.

Fixpoint rstrip (s : string) : string :=
  match s with
  | EmptyString => EmptyString
  | String c r =>
      let r' := rstrip r in
      match r' with
      | EmptyString => if is_space c then EmptyString else String c EmptyString
      | _ => String c r'
      end
  end.

(** [str.strip()] *)
Definition strip (s : string) : string := rstrip (lstrip s).

(** [s.split('.')[0]]: the text before the first ['.']. *)
Fixpoint before_dot (s : string) : string :=
  match s with
  | EmptyString => EmptyString
  | String c r => if Ascii.eqb c "." then EmptyString else String c (before_dot r)
  end.

(** ** [int(...)] *)

(** Decimal digits with single underscores between them, as [int(str)]
    accepts them. *)
Fixpoint digits_aux (s : string) (acc : Z) (last_us : bool) : option Z :=
  match s with
  | EmptyString => if last_us then None else Some acc
  | String c r =>
      if is_digit c then digits_aux r (acc * 10 + digit_val c)%Z false
      else if Ascii.eqb c "_" && negb last_us then digits_aux r acc true
      else None
  end.

Definition parse_unsigned (s : string) : option Z :=
  match s with
  | String c r => if is_digit c then digits_aux r (digit_val c) false else None
  | EmptyString => None
  end.

(** [int(s)] for a string: surrounding whitespace, an optional sign, digits. *)
Definition parse_int (s : string) : option Z :=
  match strip s with
  | String c r =>
      if Ascii.eqb c "-" then option_map Z.opp (parse_unsigned r)
      else if Ascii.eqb c "+" then parse_unsigned r
      else parse_unsigned (String c r)
  | EmptyString => None
  end.

(** [str.isascii()]: every character is below 128.  On such strings
    [strip] and [parse_int] read the text as Python does. *)
Fixpoint isascii (s : string) : bool :=
  match s with
  | EmptyString => true
  | String c r => (nat_of_ascii c <? 128)%nat && isascii r
  end.

(** [int(v)] for any JSON value; a float is truncated toward zero. *)
Definition py_int (v : pyval) : result Z :=
  match v with
  | VStr s => match parse_int s with Some z => Ok z | None => Err ValueError end
  | VInt z => Ok z
  | VFloat q => Ok (Z.quot (Qnum q) (Zpos (Qden q)))
  | VBool b => Ok (if b then 1%Z else 0%Z)
  | VNone => Err TypeError
  | VOther => Err TypeError
  end.

(** ** String helpers used by the field bookkeeping *)

Fixpoint starts_with (pre s : string) : bool :=
  match pre, s with
  | EmptyString, _ => true
  | String a pre', String b s' => Ascii.eqb a b && starts_with pre' s'
  | String _ _, EmptyString => false
  end.

(** [str.replace(old, new)]: non-overlapping occurrences, left to right;
    [k] counts the characters of the current match still to be skipped. *)
Fixpoint replace_go (old new s : string) (k : nat) : string :=
  match s with
  | EmptyString => EmptyString
  | String c r =>
      match k with
      | S k' => replace_go old new r k'
      | O => if starts_with old s
             then new ++ replace_go old new r (String.length old - 1)
             else String c (replace_go old new r 0)
      end
  end.

Definition str_replace (old new s : string) : string := replace_go old new s 0.

Definition ends_with (suf s : string) : bool :=
  Nat.leb (String.length suf) (String.length s) &&
  String.eqb (substring (String.length s - String.length suf) (String.length suf) s) suf.

(** ** Subdomain scores: a Python dict [subdomain -> int] *)

Definition scores := list (string * Z).

(** [d[k] = v]: an existing key keeps its position, a new key goes last. *)
Fixpoint dict_set (k : string) (v : Z) (d : scores) : scores :=
  match d with
  | [] => [(k, v)]
  | (k', v') :: r => if String.eqb k k' then (k', v) :: r else (k', v') :: dict_set k v r
  end.

Fixpoint assoc {B} (k : string) (l : list (string * B)) : option B :=
  match l with
  | [] => None
  | (k', b) :: r => if String.eqb k k' then Some b else assoc k r
  end.

Definition field_mapping : list (string * string) :=
  [("Governance_Q1", "Visie op passende zorg");
   ("Governance_Q2", "Leiderschap en eigenaarschap");
   ("Structuur_Q1", "Regionale samenwerking");
   ("Structuur_Q2", "Tools en platforms");
   ("Proces_Q1", "Patiëntgericht procesontwerp");
   ("Proces_Q2", "Leren en verbeteren");
   ("Uitkomsten_en_sturing_Q1", "Outcomegericht werken");
   ("Uitkomsten_en_sturing_Q2", "Monitoring en besluitvorming")].

(** [numeric_fields] of [create_concrete_recommendations_report]. *)
Definition rec_numeric_fields : list (string * string) :=
  [("Structuur_Q1_Numeric", "Regionale samenwerking");
   ("Structuur_Q2_Numeric", "Tools en platforms");
   ("Uitkomsten_en_sturing_Q1_Numeric", "Outcomegericht werken");
   ("Uitkomsten_en_sturing_Q2_Numeric", "Monitoring en besluitvorming")].

(** [numeric_fields] of [create_support_overview_report]. *)
Definition support_numeric_fields : list (string * string) :=
  [("Governance_Q1_Numeric", "Visie op passende zorg");
   ("Governance_Q2_Numeric", "Leiderschap en eigenaarschap");
   ("Structuur_Q1_Numeric", "Regionale samenwerking");
   ("Structuur_Q2_Numeric", "Tools en platforms");
   ("Proces_Q1_Numeric", "Patiëntgericht procesontwerp");
   ("Proces_Q2_Numeric", "Leren en verbeteren");
   ("Uitkomsten_en_sturing_Q1_Numeric", "Outcomegericht werken");
   ("Uitkomsten_en_sturing_Q2_Numeric", "Monitoring en besluitvorming")].

(** The text branch shared by both reports:
    [if isinstance(score_text, str) and score_text.strip():
       score = int(score_text.split('.')[0])]. *)
Definition text_score (v : pyval) : option (result Z) :=
  match v with
  | VStr s => if String.eqb (strip s) "" then None
              else Some (py_int (VStr (before_dot s)))
  | _ => None
  end.

(** First loop of [create_concrete_recommendations_report], with its
    [elif field.endswith('_Numeric') ...] branch. *)
Fixpoint rec_text_loop (p : payload) (fm : list (string * string)) (d : scores)
  : result scores :=
  match fm with
  | [] => Ok d
  | (field, sd) :: rest =>
      match lookup field p with
      | None => rec_text_loop p rest d
      | Some v =>
          match text_score v with
          | Some r => score <- r ;; rec_text_loop p rest (dict_set sd score d)
          | None =>
              let base_field := str_replace "_Numeric" "" field in
              if ends_with "_Numeric" field && match assoc base_field field_mapping with Some _ => true | None => false end
              then score <- py_int v ;;
                   match assoc base_field field_mapping with
                   | Some sd' => rec_text_loop p rest (dict_set sd' score d)
                   | None => rec_text_loop p rest d
                   end
              else rec_text_loop p rest d
          end
      end
  end.

(** First loop of [create_support_overview_report]. *)
Fixpoint support_text_loop (p : payload) (fm : list (string * string)) (d : scores)
  : result scores :=
  match fm with
  | [] => Ok d
  | (field, sd) :: rest =>
      match lookup field p with
      | None => support_text_loop p rest d
      | Some v =>
          match text_score v with
          | Some r => score <- r ;; support_text_loop p rest (dict_set sd score d)
          | None => support_text_loop p rest d
          end
      end
  end.

(** The [numeric_fields] loop: [if field in payload: score = int(payload[field])]. *)
Fixpoint numeric_loop (p : payload) (nf : list (string * string)) (d : scores)
  : result scores :=
  match nf with
  | [] => Ok d
  | (field, sd) :: rest =>
      match lookup field p with
      | None => numeric_loop p rest d
      | Some v => score <- py_int v ;; numeric_loop p rest (dict_set sd score d)
      end
  end.

Definition rec_scores (p : payload) : result scores :=
  d <- rec_text_loop p field_mapping [] ;; numeric_loop p rec_numeric_fields d.

Definition support_scores (p : payload) : result scores :=
  d <- support_text_loop p field_mapping [] ;; numeric_loop p support_numeric_fields d.

(** ** The static advice and support tables *)

Record advice := mkAdvice { advice_text : string; support : string; support_type : string }.
Record support_info := mkSupport { s_support_type : string; description : string }.

Definition sup_training := "Startsessie of training: visie, netwerk of dashboard opzetten.".
Definition sup_workshop := "Co-creatie workshop: structuur of pilotplan uitwerken.".
Definition sup_consultancy := "Consultancy: concretiseer aanpak en borg werkwijze.".

(** [advice_mapping] of [create_concrete_recommendations_report]. *)
Definition advice_mapping : list ((string * Z) * advice) :=
  [(("Visie op passende zorg", 1%Z), mkAdvice "Faciliteer een visie- en inspiratiesessie met stakeholders." sup_training "Training");
   (("Visie op passende zorg", 2%Z), mkAdvice "Vertaal losse ideeën naar een eerste conceptvisie." sup_workshop "Workshop");
   (("Visie op passende zorg", 3%Z), mkAdvice "Verscherp visie en koppel concrete doelen en termijnen." sup_consultancy "Consultancy");
   (("Leiderschap en eigenaarschap", 1%Z), mkAdvice "Benoem een bestuurlijk ambassadeur voor passende zorg." sup_training "Training");
   (("Leiderschap en eigenaarschap", 2%Z), mkAdvice "Betrek bestuur actief bij voortgang en beslismomenten." sup_workshop "Workshop");
   (("Leiderschap en eigenaarschap", 3%Z), mkAdvice "Geef bestuur formele rol in governance." sup_consultancy "Consultancy");
   (("Regionale samenwerking", 1%Z), mkAdvice "Breng partners in kaart en start eerste verkenningsgesprekken." sup_training "Training");
   (("Regionale samenwerking", 2%Z), mkAdvice "Organiseer maandelijks thematisch netwerkoverleg." sup_workshop "Workshop");
   (("Regionale samenwerking", 3%Z), mkAdvice "Versterk met gezamenlijke doelen en actielijst." sup_consultancy "Consultancy");
   (("Tools en platforms", 1%Z), mkAdvice "Start met gedeelde mappen of formats." sup_training "Training");
   (("Tools en platforms", 2%Z), mkAdvice "Verken dashboard-tools of Zoho/PowerBI." sup_workshop "Workshop");
   (("Tools en platforms", 3%Z), mkAdvice "Versnel ontwikkeling en test actief met gebruikers." sup_consultancy "Consultancy");
   (("Patiëntgericht procesontwerp", 1%Z), mkAdvice "Visualiseer de patiëntreis met team of patiëntpanel." sup_training "Training");
   (("Patiëntgericht procesontwerp", 2%Z), mkAdvice "Evalueer pilots en werk verbeterideeën verder uit." sup_workshop "Workshop");
   (("Patiëntgericht procesontwerp", 3%Z), mkAdvice "Standaardiseer het proces en monitor op resultaat." sup_consultancy "Consultancy");
   (("Leren en verbeteren", 1%Z), mkAdvice "Start met reflectie- of verbetermomenten per kwartaal." sup_training "Training");
   (("Leren en verbeteren", 2%Z), mkAdvice "Implementeer eenvoudige PDCA-cyclus op teamniveau." sup_workshop "Workshop");
   (("Leren en verbeteren", 3%Z), mkAdvice "Borg deze in overleggen en dashboards." sup_consultancy "Consultancy");
   (("Outcomegericht werken", 1%Z), mkAdvice "Definieer 2–3 relevante uitkomstindicatoren." sup_training "Training");
   (("Outcomegericht werken", 2%Z), mkAdvice "Maak ze zichtbaar in teamoverleg of dashboard." sup_workshop "Workshop");
   (("Outcomegericht werken", 3%Z), mkAdvice "Koppel outcome aan proces- en beslisinformatie." sup_consultancy "Consultancy");
   (("Monitoring en besluitvorming", 1%Z), mkAdvice "Start met een maandelijks stuurmoment." sup_training "Training");
   (("Monitoring en besluitvorming", 2%Z), mkAdvice "Introduceer KPI-dashboard met kwartaalupdate." sup_workshop "Workshop");
   (("Monitoring en besluitvorming", 3%Z), mkAdvice "Train teams in gebruik en interpretatie." sup_consultancy "Consultancy")].

(** [support_mapping] of [create_support_overview_report]: for every
    subdomain, score 1 is a training, 2 a workshop, 3 a consultancy. *)
Definition support_mapping : list ((string * Z) * support_info) :=
  flat_map (fun sd =>
    [((sd, 1%Z), mkSupport "Training" sup_training);
     ((sd, 2%Z), mkSupport "Workshop" sup_workshop);
     ((sd, 3%Z), mkSupport "Consultancy" sup_consultancy)])
    ["Visie op passende zorg"; "Leiderschap en eigenaarschap";
     "Regionale samenwerking"; "Tools en platforms";
     "Patiëntgericht procesontwerp"; "Leren en verbeteren";
     "Outcomegericht werken"; "Monitoring en besluitvorming"].

(** Lookup in a dict keyed by [(subdomain, score)] tuples. *)
Fixpoint tlookup {B} (k : string * Z) (l : list ((string * Z) * B)) : option B :=
  match l with
  | [] => None
  | ((sd, s), b) :: r =>
      if String.eqb (fst k) sd && Z.eqb (snd k) s then Some b else tlookup k r
  end.

Definition domain_mapping : list (string * string) :=
  [("Visie op passende zorg", "Governance");
   ("Leiderschap en eigenaarschap", "Governance");
   ("Regionale samenwerking", "Structuur");
   ("Tools en platforms", "Structuur");
   ("Patiëntgericht procesontwerp", "Proces");
   ("Leren en verbeteren", "Proces");
   ("Outcomegericht werken", "Uitkomsten & sturing");
   ("Monitoring en besluitvorming", "Uitkomsten & sturing")].

(** ** The two at-risk tables *)

(** A drawn report: the congratulatory message image, or a table with
    one data row per recommendation. *)
Inductive report (R : Type) : Type :=
| Congratulations : report R
| Table : list R -> report R.
Arguments Congratulations {R}.
Arguments Table {R} _.

(** The columns of a recommendations row (the [full_name] and
    [organization] entries of the Python dict are never drawn). *)
Record rec_row := mkRecRow {
  r_subdomain : string; r_domain : string; r_score : Z;
  r_advice : string; r_support : string; r_support_type : string }.

Record support_row := mkSupportRow {
  s_subdomain : string; s_type : string; s_description : string; s_score : Z }.

(** [for subdomain, score in subdomain_scores.items():
       if score <= 3 and (subdomain, score) in advice_mapping: ...] *)
Fixpoint recommendations (d : scores) : list rec_row :=
  match d with
  | [] => []
  | (sd, score) :: rest =>
      if Z.leb score 3 then
        match tlookup (sd, score) advice_mapping with
        | Some rec =>
            mkRecRow sd (match assoc sd domain_mapping with Some x => x | None => "" end)
                     score (advice_text rec) (support rec) (support_type rec)
            :: recommendations rest
        | None => recommendations rest
        end
      else recommendations rest
  end.

Fixpoint support_recommendations (d : scores) : list support_row :=
  match d with
  | [] => []
  | (sd, score) :: rest =>
      if Z.leb score 3 then
        match tlookup (sd, score) support_mapping with
        | Some info =>
            mkSupportRow sd (s_support_type info) (description info) score
            :: support_recommendations rest
        | None => support_recommendations rest
        end
      else support_recommendations rest
  end.

Definition to_report {R} (rows : list R) : report R :=
  match rows with
  | [] => Congratulations
  | _ => Table rows
  end.

(** [create_concrete_recommendations_report]: the drawing itself is not
    modelled, only what is drawn. *)
Definition create_concrete_recommendations_report (p : payload) : result (report rec_row) :=
  d <- rec_scores p ;; Ok (to_report (recommendations d)).

Definition create_support_overview_report (p : payload) : result (report support_row) :=
  d <- support_scores p ;; Ok (to_report (support_recommendations d)).



(** ** Maturity phase *)

Open Scope Z_scope.

(** [get_transitiefase] after its [total_sum = int(total_sum)]. *)
Definition transitiefase_of (total_sum : Z) : string :=
  if (0 <=? total_sum) && (total_sum <=? 14) then "Startfase"
  else if (15 <=? total_sum) && (total_sum <=? 22) then "Aan de slag"
  else if (23 <=? total_sum) && (total_sum <=? 30) then "Op de kaart"
  else if (31 <=? total_sum) && (total_sum <=? 36) then "In control"
  else if (37 <=? total_sum) && (total_sum <=? 40) then "Voorloper"
  else "Onbekend".

Definition get_transitiefase (total_sum : pyval) : result string :=
  t <- py_int total_sum ;; Ok (transitiefase_of t).

(** The phase names of [create_score_breakdown_chart], in bucket order. *)
Definition phase_names : list string :=
  ["Startfase"; "Aan de slag"; "Op de kaart"; "In control"; "Voorloper"].

(** [current_phase] of [create_score_breakdown_chart]. *)
Definition current_phase (total_score : Z) : nat :=
  if 37 <=? total_score then 4%nat
  else if 31 <=? total_score then 3%nat
  else if 23 <=? total_score then 2%nat
  else if 15 <=? total_score then 1%nat
  else 0%nat.

(** ** Circle rating of a domain score *)

Inductive glyph : Type :=
| Filled  (* '●' *)
| Half    (* '◐' *)
| Hollow. (* '○' *)

(** [int(x)] of a float: truncation toward zero. *)
Definition q_int (q : Q) : Z := Z.quot (Qnum q) (Zpos (Qden q)).

(** [generate_star_rating]: the circles, and the normalised score that
    the suffix [f' ({normalized_score:.1f}/5)'] prints.  Float arithmetic
    is taken exact. *)
Definition generate_star_rating (score : Q) : list glyph * Q :=
  let normalized_score := ((score / 10) * 5)%Q in
  let full_circles := q_int normalized_score in
  let remainder := (normalized_score - inject_Z full_circles)%Q in
  let half_circle := if Qle_bool (1 # 2)%Q remainder then 1%Z else 0%Z in
  let empty_circles := (5 - full_circles - half_circle)%Z in
  ((repeat Filled (Z.to_nat full_circles)
    ++ (if Z.eqb half_circle 1 then [Half] else [])
    ++ repeat Hollow (Z.to_nat empty_circles))%list,
   normalized_score).

(** ** Greedy word wrap of the advice and description columns *)

(** [s.split(sep)] for a one-character separator. *)
Fixpoint split_aux (sep : ascii) (s acc : string) : list string :=
  match s with
  | EmptyString => [acc]
  | String c r =>
      if Ascii.eqb c sep then acc :: split_aux sep r ""
      else split_aux sep r (acc ++ String c EmptyString)
  end.

(** [s.split(' ')] *)
Definition split_space (s : string) : list string := split_aux " " s "".

(** The [for word in words] loop, [current_line] threaded through. *)
Fixpoint wrap_loop (width : nat) (words : list string) (current_line : string)
  : list string :=
  match words with
  | [] => if String.eqb current_line "" then [] else [current_line]
  | word :: rest =>
      let test_line :=
        if String.eqb current_line "" then word else current_line ++ " " ++ word in
      if Nat.leb (String.length test_line) width
      then wrap_loop width rest test_line
      else ((if String.eqb current_line "" then [] else [current_line])
            ++ wrap_loop width rest word)%list
  end.

(** The lines drawn in a cell: [if col_idx == 2 and len(data) > width]
    the wrapped lines, otherwise [data] as one line.  The advice column
    uses width 45, the description column width 60. *)
Definition cell_lines (width : nat) (data : string) : list string :=
  if Nat.ltb width (String.length data)
  then wrap_loop width (split_space data) ""
  else [data].

(** ** Slides that are missing from the template *)

Section Slides.
Variable slide : Type.

(** [presentation.slides[i]] replaced by its updated version. *)
Fixpoint set_nth (i : nat) (x : slide) (l : list slide) : list slide :=
  match l, i with
  | [], _ => []
  | _ :: r, O => x :: r
  | y :: r, S i' => y :: set_nth i' x r
  end.

(** The shape both [add_charts_to_slides] and the slide loop of
    [replace_placeholders] have: for each target index, in order,
    [if index < len(presentation.slides)] the work on that slide, which
    may raise; an exception aborts the rest. *)
Fixpoint for_existing_slides (work : nat -> slide -> result slide)
    (targets : list nat) (slides : list slide) : result (list slide) :=
  match targets with
  | [] => Ok slides
  | i :: rest =>
      if Nat.ltb i (length slides) then
        match nth_error slides i with
        | Some s => s' <- work i s ;; for_existing_slides work rest (set_nth i s' slides)
        | None => for_existing_slides work rest slides
        end
      else for_existing_slides work rest slides
  end.

(** [add_charts_to_slides]: [add_chart i] is the chart step of slide
    index [i] (3: maturity model, 4: domain table, 5: detailed reports,
    6: recommendations, 7: support overview). *)
Definition add_charts_to_slides (add_chart : nat -> slide -> result slide)
    (slides : list slide) : result (list slide) :=
  for_existing_slides add_chart [3; 4; 5; 6; 7]%nat slides.

(** The slide loop of [replace_placeholders] over the keys 0, 3, 8 of
    [slide_replacements]; [replace_in i] is the text rewriting of the
    shapes of slide index [i]. *)
Definition replace_placeholders_slides (replace_in : nat -> slide -> result slide)
    (slides : list slide) : result (list slide) :=
  for_existing_slides replace_in [0; 3; 8]%nat slides.

End Slides.

Arguments set_nth {slide} _ _ _.
Arguments for_existing_slides {slide} _ _ _.
Arguments add_charts_to_slides {slide} _ _.
Arguments replace_placeholders_slides {slide} _ _.

(** ** The low-score list of slide 9 *)

Definition keywords : list (string * string) :=
  [("Governance_Q1_Numeric", "Visie");
   ("Governance_Q2_Numeric", "Leiderschap");
   ("Structuur_Q1_Numeric", "Samenwerking");
   ("Structuur_Q2_Numeric", "Tools");
   ("Proces_Q1_Numeric", "Patiëntgericht");
   ("Proces_Q2_Numeric", "Leren");
   ("Uitkomsten_en_sturing_Q1_Numeric", "Uitkomsten");
   ("Uitkomsten_en_sturing_Q2_Numeric", "Data")].

(** [str(int)] *)
Definition z_to_string (z : Z) : string :=
  NilEmpty.string_of_int (Z.to_int z).

(** [payload.get(key, 0)] *)
Definition get_or_zero (key : string) (p : payload) : pyval :=
  match lookup key p with Some v => v | None => VInt 0 end.

Fixpoint low_scoring_loop (p : payload) (kws : list (string * string))
  : result (list string) :=
  match kws with
  | [] => Ok []
  | (key, keyword) :: rest =>
      score <- py_int (get_or_zero key p) ;;
      tail <- low_scoring_loop p rest ;;
      Ok (if (score =? 1) || (score =? 2)
          then (keyword ++ ": " ++ z_to_string score) :: tail
          else tail)
  end%Z.

Definition get_lowest_scoring_domains (p : payload) : result string :=
  low_scoring <- low_scoring_loop p keywords ;;
  Ok (match low_scoring with
      | [] => "Geen lage scores"
      | _ => String.concat ", " low_scoring
      end).

(** [slide_replacements] of [replace_placeholders], from its prepared values. *)
Definition slide_replacements (organization report_date respondent_name total_sum
    transitiefase lowest_domains : string) : list (nat * list (string * string)) :=
  [(0%nat, [("{{organisatie}}", organization); ("{{rapport_datum}}", report_date);
        ("{{respondent_naam}}", respondent_name)]);
   (3%nat, [("{{organisatie}}", organization); ("{{totaalscore}}", total_sum);
        ("{{transitiefase_naam}}", transitiefase)]);
   (8%nat, [("{{organisatie}}", organization); ("{{transitiefase}}", transitiefase);
        ("{{laagst_scorende_domein}}", lowest_domains)])].

(** ** [clean_text] *)

Fixpoint contains (sub s : string) : bool :=
  starts_with sub s || match s with EmptyString => false | String _ r => contains sub r end.

Definition nl_c : ascii := "010".
Definition nl : string := String nl_c EmptyString.
Definition cr : string := String "013" EmptyString.
Definition tab : string := String "009" EmptyString.
Definition vt : string := String "011" EmptyString.

(** The [replacements] dict in insertion order.  Its keys ['\x0D\x0A']
    and ['\r\n'] are the same string, so the dict holds six entries. *)
Definition replacements : list (string * string) :=
  [("_x000A", nl); ("_x000D", cr); ("_x000B", nl); ("_x0009", tab);
   (vt, nl); (cr ++ nl, nl)].

Definition apply_replacements (text : string) : string :=
  fold_left (fun cleaned '(encoded_char, actual_char) =>
               str_replace encoded_char actual_char cleaned) replacements text.

(** [while old in s: s = s.replace(old, new)]; every round that finds
    [old] shortens [s] when [new] is shorter, so [length s] rounds
    suffice (see [while_replace_done]). *)
Fixpoint while_replace (fuel : nat) (old new s : string) : string :=
  match fuel with
  | O => s
  | S f => if contains old s then while_replace f old new (str_replace old new s) else s
  end.

Definition collapse_newlines (cleaned : string) : string :=
  while_replace (String.length cleaned) (nl ++ nl ++ nl) (nl ++ nl) cleaned.

Definition collapse_spaces (line : string) : string :=
  while_replace (String.length line) "  " " " line.

(** [cleaned.split('\n')] *)
Definition split_lines (s : string) : list string := split_aux nl_c s "".

Definition clean_line (line : string) : string := strip (collapse_spaces line).

Definition clean_text (text : string) : string :=
  let cleaned := collapse_newlines (apply_replacements text) in
  String.concat nl (map clean_line (split_lines cleaned)).

(** ** Invariants of cleaned text *)

(** Neighbours that never meet in the output of [clean_text]: two
    spaces, and a newline next to other whitespace. *)
Definition pair_ok (a b : ascii) : bool :=
  negb (Ascii.eqb " " a && Ascii.eqb " " b)
  && negb (Ascii.eqb nl_c a && is_space b && negb (Ascii.eqb nl_c b))
  && negb (is_space a && negb (Ascii.eqb nl_c a) && Ascii.eqb nl_c b).

(** [pair_ok] for every two neighbours of [prev ++ s ++ "\n"]. *)
Fixpoint chain_ok (prev : ascii) (s : string) : bool :=
  match s with
  | EmptyString => pair_ok prev nl_c
  | String c r => pair_ok prev c && chain_ok c r
  end.

(** No character of [r] occurs in [pat]. *)
Fixpoint disjoint (r pat : string) : bool :=
  match r with
  | EmptyString => true
  | String c r' => negb (contains (String c EmptyString) pat) && disjoint r' pat
  end.

(** The keys of [replacements] that contain no newline. *)
Definition escape_patterns : list string :=
  ["_x000A"; "_x000D"; "_x000B"; "_x0009"; vt].

(** What the output of [clean_text] satisfies. *)
Definition clean_inv (v : string) : Prop :=
  chain_ok nl_c v = true /\
  forall pat, In pat escape_patterns -> contains pat v = false.

(** ["a\n \n\nb"]: a line holding one space between two newlines. *)
Definition clean_twice_input : string := "a" ++ nl ++ " " ++ nl ++ nl ++ "b".

(** ** Concrete payloads *)

(** [Governance_Q1_Numeric = 1], the seven other numeric fields 5. *)
Definition governance_low_payload : payload :=
  [("Governance_Q1_Numeric", VInt 1); ("Governance_Q2_Numeric", VInt 5);
   ("Structuur_Q1_Numeric", VInt 5); ("Structuur_Q2_Numeric", VInt 5);
   ("Proces_Q1_Numeric", VInt 5); ("Proces_Q2_Numeric", VInt 5);
   ("Uitkomsten_en_sturing_Q1_Numeric", VInt 5);
   ("Uitkomsten_en_sturing_Q2_Numeric", VInt 5)].


(** Both encodings of the first Governance question, disagreeing. *)
Definition both_encodings_payload : payload :=
  [("Governance_Q1", VStr "4. Visie is vastgelegd");
   ("Governance_Q1_Numeric", VInt 1)].

(** Low scores 1 (Visie, numeric) and 2 (Leren, as text), a 3 for
    Samenwerking, the other fields absent. *)
Definition low_scores_payload : payload :=
  [("Governance_Q1_Numeric", VInt 1); ("Proces_Q2_Numeric", VStr "2");
   ("Structuur_Q1_Numeric", VInt 3)].

(** The score [int(payload.get(key, 0))], 0 where it would raise. *)
Definition score_or_zero (p : payload) (key : string) : Z :=
  match py_int (get_or_zero key p) with Ok z => z | Err _ => 0 end.

(** The low-score list as the spec words it: for the eight numeric
    fields in their fixed order, ["<Keyword>: <score>"] for each score
    equal to 1 or 2. *)
Definition low_scoring_spec (score : string -> Z) : list string :=
  flat_map (fun '(key, keyword) =>
              if (score key =? 1) || (score key =? 2)
              then [keyword ++ ": " ++ z_to_string (score key)] else [])
           keywords.

(** ** [get_score_color] *)

Definition get_score_color (score : pyval) : result string :=
  s <- py_int score ;;
  Ok (if s =? 1 then "#dc3545"
      else if s =? 2 then "#fd7e8a"
      else if s =? 3 then "#ffc107"
      else if s =? 4 then "#90ee90"
      else if s =? 5 then "#28a745"
      else "#6c757d").

(** ** [create_score_breakdown_chart] *)

(** Its [field_mapping]: field -> (domain, subdomain). *)
Definition breakdown_fields : list (string * (string * string)) :=
  [("Governance_Q1_Numeric", ("Governance", "Visie op passende zorg"));
   ("Governance_Q2_Numeric", ("Governance", "Leiderschap en eigenaarschap"));
   ("Structuur_Q1_Numeric", ("Structuur", "Regionale samenwerking"));
   ("Structuur_Q2_Numeric", ("Structuur", "Tools en platforms"));
   ("Proces_Q1_Numeric", ("Proces", "Patiëntgericht procesontwerp"));
   ("Proces_Q2_Numeric", ("Proces", "Leren en verbeteren"));
   ("Uitkomsten_en_sturing_Q1_Numeric", ("Uitkomsten & sturing", "Outcomegericht werken"));
   ("Uitkomsten_en_sturing_Q2_Numeric", ("Uitkomsten & sturing", "Monitoring en besluitvorming"))].

(** [subdomain_scores]: a dict from a domain to its list of
    [(subdomain, score)] pairs. *)
Definition subdomain_dict := list (string * list (string * Z)).

(** [if domain not in d: d[domain] = []] then [d[domain].append(x)]. *)
Fixpoint dict_append (k : string) (x : string * Z) (d : subdomain_dict) : subdomain_dict :=
  match d with
  | [] => [(k, [x])]
  | (k', xs) :: r =>
      if String.eqb k k' then (k', (xs ++ [x])%list) :: r
      else (k', xs) :: dict_append k x r
  end.

(** The first loop: [if field in payload: score = int(payload[field]);
    total_score += score; ...append((subdomain, score))]. *)
Fixpoint breakdown_loop (p : payload) (fm : list (string * (string * string)))
    (total_score : Z) (d : subdomain_dict) : result (Z * subdomain_dict) :=
  match fm with
  | [] => Ok (total_score, d)
  | (field, (domain, subdomain)) :: rest =>
      match lookup field p with
      | None => breakdown_loop p rest total_score d
      | Some v =>
          score <- py_int v ;;
          breakdown_loop p rest (total_score + score) (dict_append domain (subdomain, score) d)
      end
  end.

Definition domain_order : list string :=
  ["Governance"; "Structuur"; "Proces"; "Uitkomsten & sturing"].

(** [score_color] of a subdomain row of the domain table. *)
Definition row_score_color (score : Z) : string :=
  if 4 <=? score then "#2E7D32"
  else if 3 <=? score then "#689F38"
  else if 2 <=? score then "#FF8F00"
  else "#D32F2F".

(** The domain table: for each domain of [domain_order] present in
    [subdomain_scores], its header and its rows
    [(subdomain, score, score_color)]. *)
Definition domain_table_of (d : subdomain_dict) : list (string * list (string * Z * string)) :=
  flat_map (fun domain =>
              match assoc domain d with
              | Some subs => [(domain, map (fun '(sub, score) => (sub, score, row_score_color score)) subs)]
              | None => []
              end) domain_order.

(** [matching_subdomains] of the bar whose [score_range] is [k]. *)
Definition matching_subdomains (d : subdomain_dict) (k : Z) : list string :=
  flat_map (fun '(_, subs) =>
              flat_map (fun '(sub, score) => if score =? k then [sub] else []) subs) d.

(** [domains_text]: at most three names, then [" (+n more)"]. *)
Definition domains_text (m : list string) : string :=
  String.concat " • " (firstn 3 m) ++
  (if (3 <? length m)%nat
   then " (+" ++ z_to_string (Z.of_nat (length m) - 3) ++ " more)" else "").

(** The italic line of bar [i] ([score_range] [i + 1]), if any. *)
Definition phase_label (d : subdomain_dict) (i : nat) : option string :=
  match matching_subdomains d (Z.of_nat i + 1) with
  | [] => None
  | m => Some ("Uw organisatie: " ++ domains_text m)
  end.

Definition status_text (total_score : Z) : string :=
  "Uw positie: " ++ nth (current_phase total_score) phase_names "" ++
  " (Totaal: " ++ z_to_string total_score ++ " punten van 40)".

(** What the chart shows: the domain table, the labels of the five
    bars, the highlighted bar and the status line. *)
Record breakdown_chart := mkBreakdownChart {
  domain_table : list (string * list (string * Z * string));
  bar_labels : list (option string);
  highlighted : nat;
  status : string }.

Definition create_score_breakdown_chart (p : payload) : result breakdown_chart :=
  r <- breakdown_loop p breakdown_fields 0 [] ;;
  let '(total_score, d) := r in
  Ok (mkBreakdownChart (domain_table_of d) (map (phase_label d) (seq 0 5))
        (current_phase total_score) (status_text total_score)).

(** The subdomain and [int] score of a field, if the field is present
    and converts; the scores of the present fields in field order. *)
Definition field_row (p : payload) (field subdomain : string) : list (string * Z) :=
  match lookup field p with
  | Some v => match py_int v with Ok z => [(subdomain, z)] | Err _ => [] end
  | None => []
  end.

Definition present_scores (p : payload) : list (string * Z) :=
  flat_map (fun '(field, (_, sub)) => field_row p field sub) breakdown_fields.

(** The present scores of one domain, in field order. *)
Definition domain_scores (p : payload) (domain : string) : list (string * Z) :=
  flat_map (fun '(field, (dom, sub)) =>
              if String.eqb dom domain then field_row p field sub else [])
           breakdown_fields.

(** A dict that ends with the entry of [domain], if [xs] is not empty. *)
Definition tail_of (domain : string) (xs : list (string * Z)) : subdomain_dict :=
  match xs with [] => [] | _ => [(domain, xs)] end.

(** ** [create_domain_subdomain_report] *)

(** Its [subdomain_data]: domain, subdomain and the numeric field whose
    [int(payload.get(field, 0))] is the score. *)
Definition subdomain_data_fields : list (string * string * string) :=
  [("Governance", "Visie op passende zorg", "Governance_Q1_Numeric");
   ("Governance", "Leiderschap en eigenaarschap", "Governance_Q2_Numeric");
   ("Structuur", "Regionale samenwerking", "Structuur_Q1_Numeric");
   ("Structuur", "Tools en platforms", "Structuur_Q2_Numeric");
   ("Proces", "Patiëntgericht procesontwerp", "Proces_Q1_Numeric");
   ("Proces", "Leren en verbeteren", "Proces_Q2_Numeric");
   ("Uitkomsten & sturing", "Outcomegericht werken", "Uitkomsten_en_sturing_Q1_Numeric");
   ("Uitkomsten & sturing", "Monitoring en besluitvorming", "Uitkomsten_en_sturing_Q2_Numeric")].

(** Building the [subdomain_data] list, one [int] per entry in order. *)
Fixpoint subdomain_data_loop (p : payload) (l : list (string * string * string))
  : result (list (string * string * Z)) :=
  match l with
  | [] => Ok []
  | (domain, subdomain, field) :: rest =>
      score <- py_int (get_or_zero field p) ;;
      tail <- subdomain_data_loop p rest ;;
      Ok ((domain, subdomain, score) :: tail)
  end.

(** A data row of the table: index, domain, subdomain, [str(score)] and
    the score cell's colour. *)
Record subdomain_row := mkSubdomainRow {
  sr_index : nat; sr_domain : string; sr_subdomain : string;
  sr_score : string; sr_color : string }.

(** The row loop: [for i, data in enumerate(subdomain_data)]. *)
Fixpoint subdomain_rows (i : nat) (data : list (string * string * Z))
  : result (list subdomain_row) :=
  match data with
  | [] => Ok []
  | (domain, subdomain, score) :: rest =>
      score_color <- get_score_color (VInt score) ;;
      tail <- subdomain_rows (S i) rest ;;
      Ok (mkSubdomainRow (i + 1) domain subdomain (z_to_string score) score_color :: tail)
  end.

Definition create_domain_subdomain_report (p : payload) : result (list subdomain_row) :=
  subdomain_data <- subdomain_data_loop p subdomain_data_fields ;;
  subdomain_rows 0 subdomain_data.

(** ** [process_lead] *)

Inductive outcome (E A : Type) : Type :=
| Done : A -> outcome E A
| Raise : E -> outcome E A.
Arguments Done {E A} _.
Arguments Raise {E A} _.

(** Python truthiness of a JSON value; [other_truthy] is that of the
    list or object behind [VOther]. *)
Definition truthy (other_truthy : bool) (v : pyval) : bool :=
  match v with
  | VStr s => negb (String.eqb s "")
  | VInt z => negb (z =? 0)
  | VFloat q => negb (Qeq_bool q 0)
  | VBool b => b
  | VNone => false
  | VOther => other_truthy
  end.

(** The document [request.get_json()] returns. *)
Inductive json_body : Type :=
| JDict : payload -> json_body  (* a JSON object *)
| JValue : pyval -> json_body.  (* any other JSON document *)

Inductive request : Type :=
| NotJson                          (* [request.is_json] is false *)
| MalformedJson                    (* [get_json] raises [BadRequest] *)
| JsonRequest : json_body -> request.

Definition json_truthy (other_truthy : bool) (b : json_body) : bool :=
  match b with
  | JDict p => match p with [] => false | _ => true end
  | JValue v => truthy other_truthy v
  end.

(** The dicts returned by [upload_to_zoho_workdrive] and
    [attach_file_to_lead]; neither function raises. *)
Record upload_result := mkUpload {
  up_success : bool; up_download_url : pyval; up_message : string }.
Record attach_result := mkAttach { at_success : bool; at_message : string }.

(** The services [process_lead] calls, with [exn] the exceptions they
    raise; the temporary file is named by its path. *)
Record services (exn token ppt : Type) := mkServices {
  other_truthy : bool;
  bad_request : exn;      (* raised by [get_json] on a malformed body *)
  attribute_error : exn;  (* [payload.get] on a document that is not an object *)
  get_access_token : outcome exn token;
  download_ppt_template : token -> outcome exn ppt;
  replace_placeholders : ppt -> payload -> outcome exn ppt;
  add_charts : ppt -> payload -> outcome exn ppt;
  named_temporary_file : outcome exn string;
  save : ppt -> string -> outcome exn unit;
  close : outcome exn unit;
  unlink : string -> outcome exn unit;  (* [os.unlink] *)
  upload_to_zoho_workdrive : string -> token -> upload_result;
  attach_file_to_lead : pyval -> pyval -> token -> attach_result }.
Arguments other_truthy {exn token ppt} _.
Arguments bad_request {exn token ppt} _.
Arguments attribute_error {exn token ppt} _.
Arguments get_access_token {exn token ppt} _.
Arguments download_ppt_template {exn token ppt} _ _.
Arguments replace_placeholders {exn token ppt} _ _ _.
Arguments add_charts {exn token ppt} _ _ _.
Arguments named_temporary_file {exn token ppt} _.
Arguments save {exn token ppt} _ _ _.
Arguments close {exn token ppt} _.
Arguments unlink {exn token ppt} _ _.
Arguments upload_to_zoho_workdrive {exn token ppt} _ _ _.
Arguments attach_file_to_lead {exn token ppt} _ _ _ _.

(** The outside effects of a request, in order. *)
Inductive event : Type :=
| ETokenRequest | ETemplateDownload | ETempFileCreated | EUpload
| ETempFileRemoved | EAttach.

Definition event_eq_dec (x y : event) : {x = y} + {x <> y}.
Proof. decide equality. Defined.

Inductive response (exn : Type) : Type :=
| RError : string -> response exn  (* [{'error': ...}] *)
| RCrash : exn -> response exn     (* the [except Exception as e] branch *)
| RProcessed : bool -> string -> pyval -> option upload_result ->
               option attach_result -> response exn.
  (* [success], [message], [lead_id], [upload_result], [attachment_result] *)
Arguments RError {exn} _.
Arguments RCrash {exn} _.
Arguments RProcessed {exn} _ _ _ _ _.

Section ProcessLead.
Context {exn token ppt : Type} (E : services exn token ppt).

Definition crash (e : exn) : Z * response exn := (500, RCrash e).

(** From [response_data = {...}] to the final [return]. *)
Definition respond (p : payload) (tok : token) (r : upload_result)
  : list event * (Z * response exn) :=
  let lead_id := match lookup "Lead_ID" p with Some v => v | None => VNone end in
  if up_success r then
    let permalink := up_download_url r in
    let message := "PPT processed and uploaded successfully" in
    if truthy (other_truthy E) lead_id && truthy (other_truthy E) permalink then
      let a := attach_file_to_lead E lead_id permalink tok in
      ([EAttach],
       (200, RProcessed true
               (message ++ (if at_success a then " and attached to Lead record"
                            else " but failed to attach to Lead record"))
               lead_id (Some r) (Some a)))
    else ([], (200, RProcessed true (message ++ " but no Lead_ID provided for attachment")
                 lead_id (Some r) None))
  else ([], (500, RProcessed false ("Upload failed: " ++ up_message r) lead_id None None)).

(** The [finally] block: [os.unlink(temp_path)]; an exception of it is
    caught and logged, and the file is then left behind. *)
Definition remove_temp_file (temp_path : string) : list event :=
  match unlink E temp_path with
  | Done _ => [ETempFileRemoved]
  | Raise _ => []
  end.

(** The events and the [(status, body)] of a request.  The [finally]
    block tries to remove the temporary file iff [temp_path] was bound,
    that is iff [save] returned. *)
Definition process_lead (req : request) : list event * (Z * response exn) :=
  match req with
  | NotJson => ([], (400, RError "Content-Type must be application/json"))
  | MalformedJson => ([], crash (bad_request E))
  | JsonRequest b =>
      if negb (json_truthy (other_truthy E) b)
      then ([], (400, RError "No JSON payload provided"))
      else
      match b with
      | JValue _ => ([], crash (attribute_error E))
      | JDict p =>
      match get_access_token E with
      | Raise e => ([ETokenRequest], crash e)
      | Done tok =>
      match download_ppt_template E tok with
      | Raise e => ([ETokenRequest; ETemplateDownload], crash e)
      | Done template =>
      match replace_placeholders E template p with
      | Raise e => ([ETokenRequest; ETemplateDownload], crash e)
      | Done ppt1 =>
      match add_charts E ppt1 p with
      | Raise e => ([ETokenRequest; ETemplateDownload], crash e)
      | Done ppt2 =>
      match named_temporary_file E with
      | Raise e => ([ETokenRequest; ETemplateDownload], crash e)
      | Done path =>
      match save E ppt2 path with
      | Raise e => ([ETokenRequest; ETemplateDownload; ETempFileCreated], crash e)
      | Done _ =>
      match close E with
      | Raise e =>
          ([ETokenRequest; ETemplateDownload; ETempFileCreated] ++ remove_temp_file path, crash e)%list
      | Done _ =>
          let upload_result := upload_to_zoho_workdrive E path tok in
          let '(ev, resp) := respond p tok upload_result in
          ([ETokenRequest; ETemplateDownload; ETempFileCreated; EUpload]
             ++ remove_temp_file path ++ ev, resp)%list
      end end end end end end end
      end
  end.

End ProcessLead.

(** The same services with another [os.unlink]. *)
Definition with_unlink {exn token ppt} (E : services exn token ppt)
    (f : string -> outcome exn unit) : services exn token ppt :=
  mkServices exn token ppt (other_truthy E) (bad_request E) (attribute_error E)
    (get_access_token E) (download_ppt_template E) (replace_placeholders E)
    (add_charts E) (named_temporary_file E) (save E) (close E) f
    (upload_to_zoho_workdrive E) (attach_file_to_lead E).

(** Services under which every step succeeds. *)
Definition demo_services : services string string unit :=
  @mkServices string string unit true "BadRequest" "AttributeError" (Done "token")
    (fun _ => Done tt) (fun _ _ => Done tt) (fun _ _ => Done tt)
    (Done "/tmp/lead_score_report.pptx") (fun _ _ => Done tt) (Done tt) (fun _ => Done tt)
    (fun _ _ => mkUpload true (VStr "https://workdrive.zoho.eu/file/report") "File uploaded successfully")
    (fun _ _ _ => mkAttach true "File attached to Lead successfully").

(** A payload with a [Lead_ID] and one score. *)
Definition lead_payload : payload :=
  [("Lead_ID", VStr "12345"); ("Governance_Q1_Numeric", VInt 3)].

(** * Proofs *)

(** ** Maturity phase *)

Ltac zleb_cases :=
  repeat match goal with
  | |- context [?a <=? ?b] =>
      let E := fresh "E" in
      destruct (a <=? b) eqn:E; [apply Z.leb_le in E | apply Z.leb_gt in E]
  end.

(** C4: on every total score T in [0, 40], [get_transitiefase] returns
    one of the five phase names; the names are given exactly by the
    contiguous, disjoint ranges 0-14, 15-22, 23-30, 31-36, 37-40; the
    bucket highlighted by [create_score_breakdown_chart] is the same
    phase; and 14, 15, 22, 23, 40 fall in Startfase, Aan de slag, Aan de
    slag, Op de kaart and Voorloper. *)
Theorem get_transitiefase_buckets (T : Z) (HT : 0 <= T <= 40) :
  get_transitiefase (VInt T) = Ok (transitiefase_of T) /\
  In (transitiefase_of T) phase_names /\
  (transitiefase_of T = "Startfase" <-> 0 <= T <= 14) /\
  (transitiefase_of T = "Aan de slag" <-> 15 <= T <= 22) /\
  (transitiefase_of T = "Op de kaart" <-> 23 <= T <= 30) /\
  (transitiefase_of T = "In control" <-> 31 <= T <= 36) /\
  (transitiefase_of T = "Voorloper" <-> 37 <= T <= 40) /\
  nth (current_phase T) phase_names "" = transitiefase_of T /\
  transitiefase_of 14 = "Startfase" /\ transitiefase_of 15 = "Aan de slag" /\
  transitiefase_of 22 = "Aan de slag" /\ transitiefase_of 23 = "Op de kaart" /\
  transitiefase_of 40 = "Voorloper".
Proof.
  unfold transitiefase_of, current_phase; simpl.
  split; [reflexivity|].
  zleb_cases; simpl;
    repeat split; simpl; auto 6; try lia; intros; try discriminate; lia.
Qed.

Lemma get_transitiefase_buckets_witness :
  (0 <= 36 <= 40) /\ transitiefase_of 36 = "In control".
Proof.
  split; [lia|].
  destruct (get_transitiefase_buckets 36 ltac:(lia)) as (_ & _ & _ & _ & _ & H & _).
  apply H; lia.
Defined.

(** ** Circle rating *)

Lemma q_int_floor (q : Q) : (0 <= q)%Q -> q_int q = Qfloor q.
Proof.
  destruct q as [n d]; unfold Qle, q_int, Qfloor; simpl; intro H.
  apply Z.quot_div_nonneg; lia.
Qed.

Lemma Qfloor_bounds (q : Q) : (0 <= q <= 5)%Q -> 0 <= Qfloor q <= 5.
Proof.
  intros [H0 H5]; split.
  - change 0 with (Qfloor 0); now apply Qfloor_resp_le.
  - change 5 with (Qfloor 5); now apply Qfloor_resp_le.
Qed.

(** C5: for a domain score s in [0, 10] the rating normalises s to
    norm = (s/10)*5, draws floor(norm) filled circles, then one half
    circle iff norm - floor(norm) >= 0.5, then empty circles, five
    circles in all; 10 gives five filled, 0 five empty, and 7 three
    filled, one half and one empty. *)
Theorem generate_star_rating_shape (s : Q) (Hs : (0 <= s <= 10)%Q) :
  let norm := ((s / 10) * 5)%Q in
  let full := Qfloor norm in
  let half := Qle_bool (1 # 2) (norm - inject_Z full) in
  snd (generate_star_rating s) = norm /\
  fst (generate_star_rating s) =
    (repeat Filled (Z.to_nat full) ++ (if half then [Half] else [])
     ++ repeat Hollow (Z.to_nat (5 - full - (if half then 1 else 0))))%list /\
  length (fst (generate_star_rating s)) = 5%nat /\
  fst (generate_star_rating 10) = [Filled; Filled; Filled; Filled; Filled] /\
  fst (generate_star_rating 0) = [Hollow; Hollow; Hollow; Hollow; Hollow] /\
  fst (generate_star_rating 7) = [Filled; Filled; Filled; Half; Hollow].
Proof.
  intros norm full half.
  assert (Hn : (0 <= norm <= 5)%Q).
  { assert (Hh : (norm == s * (1 # 2))%Q) by (unfold norm; field).
    rewrite Hh; destruct Hs as [H0 H10]; split.
    - apply Qmult_le_0_compat; [assumption|discriminate].
    - apply (Qle_trans _ (10 * (1 # 2))); [|discriminate].
      apply Qmult_le_compat_r; [assumption|discriminate]. }
  assert (Hq : q_int norm = full) by (apply q_int_floor; tauto).
  pose proof (Qfloor_bounds norm Hn) as Hf. fold full in Hf.
  assert (Hhalf : half = true -> full <= 4).
  { unfold half; intro Hb. apply Qle_bool_imp_le in Hb.
    destruct (Z.le_gt_cases full 4) as [|Hgt]; [assumption|exfalso].
    assert (Hf5 : full = 5) by lia.
    assert (Hle : (norm - inject_Z full <= 0)%Q).
    { rewrite Hf5. apply (Qplus_le_l _ _ 5). ring_simplify. tauto. }
    apply (Qle_trans _ _ _ Hb) in Hle. apply Hle; reflexivity. }
  unfold generate_star_rating. fold norm. rewrite Hq. fold half.
  repeat split; try reflexivity.
  - destruct half; reflexivity.
  - destruct half; cbn [fst].
    + change (Z.eqb 1 1) with true. rewrite !length_app, !repeat_length.
      cbn [length]. specialize (Hhalf eq_refl). lia.
    + change (Z.eqb 0 1) with false. rewrite !length_app, !repeat_length.
      cbn [length]. lia.
Qed.

Lemma generate_star_rating_shape_witness :
  (0 <= 7 <= 10)%Q /\ length (fst (generate_star_rating 7)) = 5%nat.
Proof.
  assert (H : (0 <= 7 <= 10)%Q) by (split; discriminate).
  split; [exact H|].
  apply (generate_star_rating_shape 7 H).
Defined.

(** ** The advice and support tables, and the empty-table fallback *)

Definition subdomains : list string := map snd field_mapping.

Lemma tlookup_in {B} (k : string * Z) (l : list ((string * Z) * B)) b :
  tlookup k l = Some b -> In ((fst k, snd k), b) l.
Proof.
  induction l as [|[[sd s] b'] r IH]; simpl; [discriminate|].
  destruct (String.eqb (fst k) sd) eqn:E1, (Z.eqb (snd k) s) eqn:E2; simpl;
    intro H; try (right; now apply IH).
  apply String.eqb_eq in E1; apply Z.eqb_eq in E2; subst.
  injection H as <-. left; reflexivity.
Qed.

Lemma advice_mapping_scores k b :
  In (k, b) advice_mapping -> snd k = 1 \/ snd k = 2 \/ snd k = 3.
Proof.
  intro H; repeat (destruct H as [H|H]; [injection H as <- _; simpl; auto|]);
    destruct H.
Qed.

Lemma support_mapping_scores k b :
  In (k, b) support_mapping -> snd k = 1 \/ snd k = 2 \/ snd k = 3.
Proof.
  intro H; repeat (destruct H as [H|H]; [injection H as <- _; simpl; auto|]);
    destruct H.
Qed.

Lemma advice_none sd s :
  s = 0 \/ s = 4 \/ s = 5 -> tlookup (sd, s) advice_mapping = None.
Proof.
  intro Hs; destruct (tlookup (sd, s) advice_mapping) as [b|] eqn:E; [|reflexivity].
  apply tlookup_in, advice_mapping_scores in E; simpl in E; lia.
Qed.

Lemma support_none sd s :
  s = 0 \/ s = 4 \/ s = 5 -> tlookup (sd, s) support_mapping = None.
Proof.
  intro Hs; destruct (tlookup (sd, s) support_mapping) as [b|] eqn:E; [|reflexivity].
  apply tlookup_in, support_mapping_scores in E; simpl in E; lia.
Qed.

Definition no_action_score (e : string * Z) : Prop :=
  snd e = 0 \/ snd e = 4 \/ snd e = 5.

Lemma recommendations_nil d :
  Forall no_action_score d -> recommendations d = [].
Proof.
  induction 1 as [|[sd s] d Hs _ IH]; [reflexivity|]; unfold no_action_score in Hs;
    cbn [recommendations support_recommendations fst snd] in *.
  destruct (Z.leb s 3) eqn:E; [|exact IH].
  rewrite advice_none by exact Hs. exact IH.
Qed.

Lemma support_recommendations_nil d :
  Forall no_action_score d -> support_recommendations d = [].
Proof.
  induction 1 as [|[sd s] d Hs _ IH]; [reflexivity|]; unfold no_action_score in Hs;
    cbn [recommendations support_recommendations fst snd] in *.
  destruct (Z.leb s 3) eqn:E; [|exact IH].
  rewrite support_none by exact Hs. exact IH.
Qed.

(** C6: both tables hold a non-empty entry for each of the eight
    subdomains at scores 1, 2 and 3, and no entry at score 0, 4 or 5 for
    any subdomain; so when every extracted score is 0, 4 or 5, both
    at-risk reports are (successfully) the congratulatory image with no
    data rows. *)
Theorem advice_tables_and_fallback :
  (forall sd s, In sd subdomains -> s = 1 \/ s = 2 \/ s = 3 ->
     exists a, tlookup (sd, s) advice_mapping = Some a /\
       advice_text a <> "" /\ support a <> "" /\ support_type a <> "") /\
  (forall sd s, In sd subdomains -> s = 1 \/ s = 2 \/ s = 3 ->
     exists i, tlookup (sd, s) support_mapping = Some i /\
       s_support_type i <> "" /\ description i <> "") /\
  (forall sd s, s = 0 \/ s = 4 \/ s = 5 ->
     tlookup (sd, s) advice_mapping = None /\ tlookup (sd, s) support_mapping = None) /\
  (forall p d, rec_scores p = Ok d -> Forall no_action_score d ->
     create_concrete_recommendations_report p = Ok Congratulations) /\
  (forall p d, support_scores p = Ok d -> Forall no_action_score d ->
     create_support_overview_report p = Ok Congratulations).
Proof.
  split; [|split; [|split; [|split]]].
  - intros sd s Hsd Hs; simpl in Hsd.
    destruct Hs as [-> | [-> | ->]]; intuition subst;
      eexists; split; try reflexivity; repeat split; discriminate.
  - intros sd s Hsd Hs; simpl in Hsd.
    destruct Hs as [-> | [-> | ->]]; intuition subst;
      eexists; split; try reflexivity; repeat split; discriminate.
  - intros sd s Hs; split; [apply advice_none | apply support_none]; exact Hs.
  - intros p d E Hd; unfold create_concrete_recommendations_report; rewrite E; simpl.
    now rewrite recommendations_nil.
  - intros p d E Hd; unfold create_support_overview_report; rewrite E; simpl.
    now rewrite support_recommendations_nil.
Qed.

(** ** Score extraction *)

Lemma assoc_dict_set_same k v d : assoc k (dict_set k v d) = Some v.
Proof.
  induction d as [|[k' v'] d IH]; simpl.
  - now rewrite String.eqb_refl.
  - destruct (String.eqb k k') eqn:E; simpl.
    + now rewrite E.
    + now rewrite E.
Qed.

Lemma assoc_dict_set_other k k' v d :
  k <> k' -> assoc k (dict_set k' v d) = assoc k d.
Proof.
  intro Hne; induction d as [|[k0 v0] d IH]; simpl.
  - destruct (String.eqb k k') eqn:E; [apply String.eqb_eq in E; congruence|reflexivity].
  - destruct (String.eqb k' k0) eqn:E0; simpl.
    + apply String.eqb_eq in E0; subst k0.
      destruct (String.eqb k k') eqn:E; [apply String.eqb_eq in E; congruence|reflexivity].
    + destruct (String.eqb k k0); [reflexivity|exact IH].
Qed.

Lemma numeric_loop_keeps p nf : forall d d' k,
  numeric_loop p nf d = Ok d' -> ~ In k (map snd nf) -> assoc k d' = assoc k d.
Proof.
  induction nf as [|[field sd] rest IH]; simpl; intros d d' k E Hk.
  - now injection E as <-.
  - destruct (lookup field p) as [v|]; [|apply (IH d); [exact E|tauto]].
    destruct (py_int v) as [n|e]; simpl in E; [|discriminate].
    rewrite (IH _ _ k E) by tauto. apply assoc_dict_set_other. intuition.
Qed.

Lemma numeric_loop_sets p nf : forall d d' field sd v n,
  numeric_loop p nf d = Ok d' -> NoDup (map snd nf) -> In (field, sd) nf ->
  lookup field p = Some v -> py_int v = Ok n -> assoc sd d' = Some n.
Proof.
  induction nf as [|[f0 sd0] rest IH]; simpl; intros d d' field sd v n E Hnd Hin Hl Hv;
    [destruct Hin|].
  inversion Hnd as [|? ? Hnin Hnd']; subst.
  destruct Hin as [Heq|Hin].
  - injection Heq as <- <-. rewrite Hl, Hv in E; simpl in E.
    rewrite (numeric_loop_keeps _ _ _ _ _ E Hnin). apply assoc_dict_set_same.
  - destruct (lookup f0 p) as [v0|]; [|eauto].
    destruct (py_int v0) as [n0|e]; simpl in E; [eauto|discriminate].
Qed.

(** In [create_support_overview_report] a numeric field wins over the
    text field of the same subdomain. *)
Lemma support_numeric_precedence p d field sd v n :
  support_scores p = Ok d -> In (field, sd) support_numeric_fields ->
  lookup field p = Some v -> py_int v = Ok n -> assoc sd d = Some n.
Proof.
  unfold support_scores; intros E Hin Hl Hv.
  destruct (support_text_loop p field_mapping []) as [d0|e]; cbn [bind] in E;
    [|discriminate].
  eapply (numeric_loop_sets p support_numeric_fields d0 d); eauto.
  repeat constructor; simpl; intro H;
    repeat (destruct H as [H|H]; [discriminate H|]); exact H.
Qed.

(** C1 (defect): with [Governance_Q1_Numeric = 1] and the other seven
    numeric fields at 5, the recommendations report is the
    congratulatory image with no rows, because its [numeric_fields]
    lists only the Structuur and Uitkomsten fields; the support
    overview, which lists all eight, has the expected single row. *)
Theorem recommendations_skip_governance_numeric :
  rec_scores governance_low_payload =
    Ok [("Regionale samenwerking", 5); ("Tools en platforms", 5);
        ("Outcomegericht werken", 5); ("Monitoring en besluitvorming", 5)] /\
  create_concrete_recommendations_report governance_low_payload = Ok Congratulations /\
  create_support_overview_report governance_low_payload =
    Ok (Table [mkSupportRow "Visie op passende zorg" "Training" sup_training 1]).
Proof. repeat split; vm_compute; reflexivity. Qed.

(** C3 (defect): with ["Governance_Q1": "4. ..."] and
    [Governance_Q1_Numeric = 1], the recommendations report scores the
    subdomain 4 (its text) and draws no row, while the support overview
    scores it 1 (its numeric field). *)
Theorem recommendations_text_over_numeric :
  rec_scores both_encodings_payload = Ok [("Visie op passende zorg", 4)] /\
  create_concrete_recommendations_report both_encodings_payload = Ok Congratulations /\
  support_scores both_encodings_payload = Ok [("Visie op passende zorg", 1)].
Proof. repeat split; vm_compute; reflexivity. Qed.








(** ** String lemmas *)

Lemma str_app_assoc (a b c : string) : (a ++ b) ++ c = a ++ (b ++ c).
Proof. induction a; simpl; congruence. Qed.

Lemma str_app_nil_r (a : string) : a ++ "" = a.
Proof. induction a; simpl; congruence. Qed.

Lemma str_length_app (a b : string) :
  String.length (a ++ b) = (String.length a + String.length b)%nat.
Proof. induction a; simpl; congruence. Qed.

Lemma split_aux_not_nil sep s acc : split_aux sep s acc <> [].
Proof.
  revert acc; induction s as [|c s IH]; intro acc; simpl; [discriminate|].
  destruct (Ascii.eqb c sep); [discriminate|apply IH].
Qed.

Lemma concat_cons (sep x : string) (l : list string) : l <> [] ->
  String.concat sep (x :: l) = x ++ sep ++ String.concat sep l.
Proof. destruct l; [congruence|reflexivity]. Qed.

(** [sep.join(s.split(sep)) == s] *)
Lemma split_aux_join sep s : forall acc,
  String.concat (String sep EmptyString) (split_aux sep s acc) = acc ++ s.
Proof.
  induction s as [|c s IH]; intro acc; cbn [split_aux].
  - simpl. now rewrite str_app_nil_r.
  - destruct (Ascii.eqb c sep) eqn:E.
    + apply Ascii.eqb_eq in E; subst c.
      rewrite concat_cons by apply split_aux_not_nil.
      rewrite IH. reflexivity.
    + rewrite IH, str_app_assoc. reflexivity.
Qed.

Lemma concat_snoc (mid : list string) (w : string) : mid <> [] ->
  String.concat " " (mid ++ [w]) = String.concat " " mid ++ " " ++ w.
Proof.
  induction mid as [|x [|y r] IH]; intro Hne; [congruence| reflexivity |].
  cbn [app] in *.
  rewrite concat_cons by discriminate. rewrite IH by discriminate.
  rewrite (concat_cons " " x (y :: r)) by discriminate.
  rewrite !str_app_assoc. reflexivity.
Qed.

(** ** Word wrap *)

Section Wrap.
Variable width : nat.
Variable words : list string.

(** What is true of a line the wrap may emit: at most [width] long, or
    a single input word that is longer; and a space-joined run of
    consecutive input words. *)
Definition wrap_line_ok (line : string) : Prop :=
  (String.length line <= width \/
   (In line words /\ width < String.length line))%nat /\
  exists pre mid post, words = (pre ++ mid ++ post)%list /\ mid <> [] /\
    line = String.concat " " mid.

Lemma wrap_loop_ok : forall ws pre current,
  words = (pre ++ ws)%list ->
  (current = "" \/ wrap_line_ok current /\
     exists pre' mid, pre = (pre' ++ mid)%list /\ mid <> [] /\
       current = String.concat " " mid) ->
  forall line, In line (wrap_loop width ws current) -> wrap_line_ok line.
Proof.
  induction ws as [|w rest IH]; intros pre current Hw Hc line Hin; simpl in Hin.
  - destruct (String.eqb current "") eqn:E; [destruct Hin|].
    destruct Hin as [<-|[]].
    destruct Hc as [Hc|[Hok _]]; [subst; discriminate|exact Hok].
  - assert (Hmid : exists pre' mid, (pre ++ [w] = pre' ++ mid)%list /\ mid <> [] /\
              (if String.eqb current "" then w else current ++ " " ++ w)
                = String.concat " " mid).
    { destruct (String.eqb current "") eqn:E.
      - exists pre, [w]. repeat split; discriminate.
      - destruct Hc as [Hc|[_ (pre' & mid & Hp & Hm & Hcur)]];
          [subst; discriminate|].
        exists pre', (mid ++ [w])%list. subst. rewrite <- app_assoc.
        repeat split; [destruct mid; discriminate|].
        now rewrite concat_snoc. }
    destruct (Nat.leb _ width) eqn:Ele.
    + apply (IH (pre ++ [w])%list
               (if String.eqb current "" then w else current ++ " " ++ w));
        [now rewrite <- app_assoc|right|exact Hin].
      destruct Hmid as (pre' & mid & Hp & Hm & Hcur).
      split; [|exists pre', mid; tauto].
      split; [left; now apply Nat.leb_le|].
      exists pre', mid, rest. rewrite Hw.
      replace (pre ++ w :: rest)%list with ((pre ++ [w]) ++ rest)%list
        by (rewrite <- app_assoc; reflexivity).
      rewrite Hp, <- app_assoc. tauto.
    + apply in_app_or in Hin; destruct Hin as [Hin|Hin].
      * destruct (String.eqb current "") eqn:E; [destruct Hin|].
        destruct Hin as [<-|[]].
        destruct Hc as [Hc|[Hok _]]; [subst; discriminate|exact Hok].
      * apply (IH (pre ++ [w])%list w); [now rewrite <- app_assoc|right|exact Hin].
        split; [split|].
        -- destruct (Nat.le_gt_cases (String.length w) width); [now left|right].
           split; [rewrite Hw; apply in_or_app; simpl; auto|assumption].
        -- exists pre, [w], rest. rewrite Hw. repeat split; discriminate.
        -- exists pre, [w]. repeat split; discriminate.
Qed.

End Wrap.

(** C7: every line drawn for a wrapped cell (advice column at width 45,
    description column at width 60, or any width) is at most [width]
    long unless it is a single input word longer than [width], and is a
    space-joined run of consecutive words of [data.split(' ')]. *)
Theorem cell_lines_ok (width : nat) (data line : string) :
  In line (cell_lines width data) ->
  wrap_line_ok width (split_space data) line.
Proof.
  unfold cell_lines; intro Hin.
  destruct (Nat.ltb width (String.length data)) eqn:E.
  - apply (wrap_loop_ok width (split_space data) (split_space data) [] "");
      auto.
  - destruct Hin as [<-|[]]. split.
    + left; apply Nat.ltb_ge; exact E.
    + exists [], (split_space data), []. rewrite app_nil_r.
      repeat split; [apply split_aux_not_nil|].
      unfold split_space; now rewrite split_aux_join.
Qed.

Lemma cell_lines_ok_witness :
  In "stakeholders." (cell_lines 45 "Faciliteer een visie- en inspiratiesessie met stakeholders.") /\
  wrap_line_ok 45 (split_space "Faciliteer een visie- en inspiratiesessie met stakeholders.")
    "stakeholders.".
Proof.
  assert (H : In "stakeholders."
                (cell_lines 45 "Faciliteer een visie- en inspiratiesessie met stakeholders."))
    by (vm_compute; auto).
  split; [exact H|]. exact (cell_lines_ok _ _ _ H).
Defined.

(** ** Missing template slides *)

Section SlideLoop.
Context {slide : Type}.

Lemma set_nth_length (i : nat) (x : slide) l : length (set_nth i x l) = length l.
Proof.
  revert i; induction l as [|y l IH]; intros [|i]; simpl; auto.
Qed.

Lemma nth_error_set_nth_same (i : nat) (x : slide) l :
  (i < length l)%nat -> nth_error (set_nth i x l) i = Some x.
Proof.
  revert i; induction l as [|y l IH]; intros [|i] Hi; simpl in *; try lia; auto.
  apply IH; lia.
Qed.

Lemma nth_error_set_nth_other (i j : nat) (x : slide) l :
  i <> j -> nth_error (set_nth j x l) i = nth_error l i.
Proof.
  revert i j; induction l as [|y l IH]; intros [|i] [|j] Hij; simpl; auto; congruence.
Qed.

Lemma for_existing_ok work : forall targets (slides : list slide),
  (forall i s, In i targets -> (i < length slides)%nat -> exists s', work i s = Ok s') ->
  exists out, for_existing_slides work targets slides = Ok out.
Proof.
  induction targets as [|i rest IH]; intros slides Hw; simpl; [eauto|].
  assert (Hr : forall j t, In j rest -> (j < length slides)%nat ->
                 exists t', work j t = Ok t') by (intros; apply Hw; simpl; auto).
  destruct (Nat.ltb i (length slides)) eqn:E; [|now apply IH].
  apply Nat.ltb_lt in E.
  destruct (nth_error slides i) as [s|]; [|now apply IH].
  destruct (Hw i s (or_introl eq_refl) E) as [s' ->]; simpl.
  apply IH. intros j t Hj; rewrite set_nth_length; auto.
Qed.

Lemma for_existing_ext work work' : forall targets (slides : list slide),
  (forall i s, (i < length slides)%nat -> work' i s = work i s) ->
  for_existing_slides work' targets slides = for_existing_slides work targets slides.
Proof.
  induction targets as [|i rest IH]; intros slides Hw; simpl; [reflexivity|].
  destruct (Nat.ltb i (length slides)) eqn:E; [|now apply IH].
  apply Nat.ltb_lt in E.
  destruct (nth_error slides i) as [s|]; [|now apply IH].
  rewrite (Hw i s E). destruct (work i s) as [s'|e]; simpl; [|reflexivity].
  apply IH. intros j t; rewrite set_nth_length; auto.
Qed.

Lemma for_existing_untouched work : forall targets (slides out : list slide),
  for_existing_slides work targets slides = Ok out ->
  length out = length slides /\
  forall i, ~ In i targets -> nth_error out i = nth_error slides i.
Proof.
  induction targets as [|i rest IH]; intros slides out E; simpl in E.
  - injection E as <-; auto.
  - destruct (Nat.ltb i (length slides)); [|destruct (IH _ _ E) as [H1 H2]; split; auto;
      intros j Hj; apply H2; simpl in Hj; tauto].
    destruct (nth_error slides i) as [s|];
      [|destruct (IH _ _ E) as [H1 H2]; split; auto; intros j Hj; apply H2; simpl in Hj; tauto].
    destruct (work i s) as [s'|e]; simpl in E; [|discriminate].
    destruct (IH _ _ E) as [H1 H2]. rewrite set_nth_length in H1. split; auto.
    intros j Hj; simpl in Hj. rewrite H2 by tauto. apply nth_error_set_nth_other. intro; subst; tauto.
Qed.

Lemma for_existing_processed work : forall targets (slides out : list slide),
  NoDup targets -> for_existing_slides work targets slides = Ok out ->
  forall i, In i targets -> (i < length slides)%nat ->
  exists s s', nth_error slides i = Some s /\ work i s = Ok s' /\ nth_error out i = Some s'.
Proof.
  induction targets as [|i0 rest IH]; intros slides out Hnd E i Hi Hlt; [destruct Hi|].
  inversion Hnd as [|? ? Hnin Hnd']; subst. simpl in E.
  destruct (Nat.ltb_spec i0 (length slides)) as [Hlt0|Hge0].
  - destruct (nth_error slides i0) as [s0|] eqn:Es0;
      [|apply nth_error_None in Es0; lia].
    destruct (work i0 s0) as [s0'|e] eqn:Ew; simpl in E; [|discriminate].
    destruct Hi as [<-|Hi].
    + exists s0, s0'. repeat split; auto.
      destruct (for_existing_untouched work rest _ _ E) as [_ H2].
      rewrite H2 by assumption. now apply nth_error_set_nth_same.
    + assert (Hne : i <> i0) by (intro; subst; contradiction).
      destruct (IH _ _ Hnd' E i Hi) as (s & s' & H1 & H2 & H3);
        [now rewrite set_nth_length|].
      rewrite nth_error_set_nth_other in H1 by assumption. eauto.
  - destruct Hi as [<-|Hi]; [lia|]. eauto.
Qed.

End SlideLoop.

(** What both slide loops guarantee for a template of [length slides]
    slides and a list of target indices. *)
Definition skips_missing_slides {slide} (targets : list nat)
    (run : (nat -> slide -> result slide) -> list slide -> result (list slide))
    (work : nat -> slide -> result slide) (slides : list slide) : Prop :=
  ((forall i s, In i targets -> (i < length slides)%nat -> exists s', work i s = Ok s') ->
   exists out, run work slides = Ok out) /\
  (forall work', (forall i s, (i < length slides)%nat -> work' i s = work i s) ->
   run work' slides = run work slides) /\
  (forall out, run work slides = Ok out ->
   length out = length slides /\
   (forall i, ~ In i targets -> nth_error out i = nth_error slides i) /\
   (forall i, In i targets -> (i < length slides)%nat ->
      exists s s', nth_error slides i = Some s /\ work i s = Ok s' /\
                   nth_error out i = Some s')).

Lemma for_existing_skips {slide} (targets : list nat) (work : nat -> slide -> result slide)
    (slides : list slide) :
  NoDup targets ->
  skips_missing_slides targets (fun w sl => for_existing_slides w targets sl) work slides.
Proof.
  intros Hnd; split; [|split].
  - intro Hw; now apply for_existing_ok.
  - intros w' Hw'; now apply for_existing_ext.
  - intros out E. destruct (for_existing_untouched _ _ _ _ E) as [H1 H2].
    split; [|split]; auto. intros i Hi Hlt. now apply (for_existing_processed _ _ _ _ Hnd E).
Qed.

(** C9: image composition (targets 3 to 7) and placeholder substitution
    (targets 0, 3, 8) on a template with [length slides] slides: a
    target index at or past the slide count is skipped without error
    (the run succeeds as soon as the work on every existing target
    succeeds, and never looks at the work of a missing index), slides
    that are not targets are left as they are, and every existing target
    slide is processed. *)
Theorem missing_slides_skipped {slide} (add_chart replace_in : nat -> slide -> result slide)
    (slides : list slide) :
  skips_missing_slides [3; 4; 5; 6; 7]%nat add_charts_to_slides add_chart slides /\
  skips_missing_slides [0; 3; 8]%nat replace_placeholders_slides replace_in slides.
Proof.
  split; apply for_existing_skips; repeat constructor; simpl; lia.
Qed.

(** ** The lowest-scoring domains *)

Lemma low_scoring_loop_spec (p : payload) (score : string -> Z) :
  forall kws,
  (forall key kw, In (key, kw) kws -> py_int (get_or_zero key p) = Ok (score key)) ->
  low_scoring_loop p kws =
  Ok (flat_map (fun '(key, keyword) =>
                  if (score key =? 1) || (score key =? 2)
                  then [keyword ++ ": " ++ z_to_string (score key)] else []) kws).
Proof.
  induction kws as [|[key kw] rest IH]; intros Hs; [reflexivity|].
  cbn [low_scoring_loop]. rewrite (Hs key kw (or_introl eq_refl)). cbn [bind].
  rewrite IH by (intros; eapply Hs; right; eassumption). cbn [bind flat_map].
  destruct ((score key =? 1) || (score key =? 2)); reflexivity.
Qed.

Lemma in_low_scoring_spec (score : string -> Z) x :
  In x (low_scoring_spec score) <->
  exists key kw, In (key, kw) keywords /\ (score key = 1 \/ score key = 2) /\
                 x = kw ++ ": " ++ z_to_string (score key).
Proof.
  unfold low_scoring_spec. rewrite in_flat_map. split.
  - intros [[key kw] [Hin Hx]]. exists key, kw. split; [exact Hin|].
    destruct (score key =? 1) eqn:E1; [apply Z.eqb_eq in E1|];
      (destruct (score key =? 2) eqn:E2; [apply Z.eqb_eq in E2|]);
      simpl in Hx; intuition.
  - intros (key & kw & Hin & Hsc & ->). exists (key, kw). split; [exact Hin|].
    destruct Hsc as [-> | ->]; simpl; auto.
Qed.

(** C10: given the score [int(payload.get(key, 0))] of every numeric
    field (here [score key]), the value for [{{laagst_scorende_domein}}]
    on slide index 8 is ["Geen lage scores"] when no field scores 1 or 2,
    and otherwise the ", "-join of ["<Keyword>: <score>"] over the fields
    scoring exactly 1 or 2, in the fixed field order; a missing field
    counts as 0, and a 3 (or any other score) is left out. *)
Theorem lowest_scoring_domains_spec (p : payload) (score : string -> Z)
    (Hs : forall key kw, In (key, kw) keywords ->
          py_int (get_or_zero key p) = Ok (score key)) :
  let expected := match low_scoring_spec score with
                  | [] => "Geen lage scores"
                  | l => String.concat ", " l
                  end in
  get_lowest_scoring_domains p = Ok expected /\
  (forall organization report_date respondent_name total_sum transitiefase,
     exists entries,
       In (8%nat, entries) (slide_replacements organization report_date
                              respondent_name total_sum transitiefase expected) /\
       assoc "{{laagst_scorende_domein}}" entries = Some expected) /\
  (forall x, In x (low_scoring_spec score) <->
     exists key kw, In (key, kw) keywords /\ (score key = 1 \/ score key = 2) /\
                    x = kw ++ ": " ++ z_to_string (score key)) /\
  (forall key kw, In (key, kw) keywords -> lookup key p = None -> score key = 0).
Proof.
  intro expected. split; [|split; [|split]].
  - unfold get_lowest_scoring_domains, low_scoring_spec in *.
    rewrite (low_scoring_loop_spec p score keywords Hs). subst expected. cbn [bind]. destruct (flat_map _ _); reflexivity.
  - intros. eexists. split; [simpl; right; right; left; reflexivity|reflexivity].
  - apply in_low_scoring_spec.
  - intros key kw Hin Hl. specialize (Hs key kw Hin).
    unfold get_or_zero in Hs. rewrite Hl in Hs. simpl in Hs. congruence.
Qed.

Lemma lowest_scoring_domains_spec_witness :
  get_lowest_scoring_domains low_scores_payload = Ok "Visie: 1, Leren: 2" /\
  (forall key kw, In (key, kw) keywords ->
     py_int (get_or_zero key low_scores_payload) =
     Ok (score_or_zero low_scores_payload key)) /\
  get_lowest_scoring_domains low_scores_payload =
  Ok (match low_scoring_spec (score_or_zero low_scores_payload) with
      | [] => "Geen lage scores"
      | l => String.concat ", " l
      end).
Proof.
  assert (Hs : forall key kw, In (key, kw) keywords ->
     py_int (get_or_zero key low_scores_payload) =
     Ok (score_or_zero low_scores_payload key))
    by (intros key kw Hin; simpl in Hin;
        repeat (destruct Hin as [Hin|Hin]; [injection Hin as <- <-; reflexivity|]);
        destruct Hin).
  split; [vm_compute; reflexivity|split; [exact Hs|]].
  exact (proj1 (lowest_scoring_domains_spec low_scores_payload
                  (score_or_zero low_scores_payload) Hs)).
Defined.

(** ** [clean_text] *)

(** C8 (defect): [clean_text] is not idempotent, and its output can hold
    three consecutive line breaks although the code means to clean up
    "more than 2 consecutive" ones.  On ["a\n \n\nb"] the three-newline
    collapse finds nothing, and only then is the middle line stripped to
    the empty string, which leaves ["a\n\n\nb"]; a second [clean_text]
    collapses that to ["a\n\nb"]. *)
Lemma clean_text_not_idempotent :
  clean_text clean_twice_input = "a" ++ nl ++ nl ++ nl ++ "b" /\
  clean_text (clean_text clean_twice_input) = "a" ++ nl ++ nl ++ "b" /\
  clean_text (clean_text clean_twice_input) <> clean_text clean_twice_input.
Proof.
  split; [vm_compute; reflexivity|split; [vm_compute; reflexivity|]].
  vm_compute. discriminate.
Qed.

(** *** Substrings *)

Lemma contains_nil_r (p : string) : p <> "" -> contains p "" = false.
Proof. destruct p; [congruence|reflexivity]. Qed.

Lemma contains_nil_l (s : string) : contains "" s = true.
Proof. destruct s; reflexivity. Qed.

Lemma contains_cons (p : string) c r :
  contains p (String c r) = starts_with p (String c r) || contains p r.
Proof. reflexivity. Qed.

Lemma starts_with_app (p a b : string) :
  starts_with p a = true -> starts_with p (a ++ b) = true.
Proof.
  revert a; induction p as [|d p IH]; intros [|c a] H; simpl in *; auto; try discriminate.
  apply andb_prop in H as [H1 H2]. rewrite H1. simpl. auto.
Qed.

Lemma contains_app_r (p a b : string) : contains p b = true -> contains p (a ++ b) = true.
Proof.
  induction a as [|c a IH]; intro H; [exact H|].
  cbn [append]. rewrite contains_cons, IH by exact H. apply orb_true_r.
Qed.

Lemma contains_app_l (p a b : string) : contains p a = true -> contains p (a ++ b) = true.
Proof.
  induction a as [|c a IH]; intro H.
  - destruct p; [apply contains_nil_l|discriminate].
  - cbn [append]. rewrite contains_cons in *.
    apply orb_true_iff in H as [H|H].
    + pose proof (starts_with_app p (String c a) b H) as H'.
      cbn [append] in H'. now rewrite H'.
    + rewrite IH by exact H. apply orb_true_r.
Qed.

Lemma contains_sub (p a l b : string) : contains p l = true -> contains p (a ++ l ++ b) = true.
Proof. intro H. apply contains_app_r, contains_app_l, H. Qed.

Lemma contains_sub_false (p a l b : string) :
  contains p (a ++ l ++ b) = false -> contains p l = false.
Proof.
  intro H. destruct (contains p l) eqn:E; [|reflexivity].
  rewrite (contains_sub p a l b E) in H. discriminate.
Qed.

Lemma starts_with_length (p s : string) :
  starts_with p s = true -> (String.length p <= String.length s)%nat.
Proof.
  revert s; induction p as [|d p IH]; intros [|c s] H; simpl in *; try lia; try discriminate.
  apply andb_prop in H as [_ H]. specialize (IH s H). lia.
Qed.

Lemma ascii_eqb_refl (c : ascii) : Ascii.eqb c c = true.
Proof. now apply Ascii.eqb_eq. Qed.

(** A character of [r] at the head of [pat]. *)
Lemma disjoint_head (c : ascii) (r q : string) :
  disjoint (String c r) q = true -> forall q', q <> String c q'.
Proof.
  intros H q' ->. cbn [disjoint] in H. apply andb_prop in H as [H _].
  rewrite contains_cons in H. cbn [starts_with] in H.
  rewrite ascii_eqb_refl in H. discriminate.
Qed.

Lemma disjoint_tail (r : string) (d : ascii) (q : string) :
  disjoint r (String d q) = true -> disjoint r q = true.
Proof.
  induction r as [|c r IH]; intro H; [reflexivity|].
  cbn [disjoint] in *. apply andb_prop in H as [H1 H2].
  rewrite IH by exact H2. rewrite andb_true_r.
  destruct (contains (String c "") q) eqn:E; [|reflexivity].
  pose proof (contains_app_r _ (String d "") q E) as H'. cbn [append] in H'.
  rewrite H' in H1. discriminate.
Qed.

(** Text put in by a replacement cannot be the start of [pat]. *)
Lemma contains_app_disjoint (pat r x : string) :
  disjoint r pat = true -> contains pat x = false -> contains pat (r ++ x) = false.
Proof.
  induction r as [|c r IH]; intros Hd Hx; [exact Hx|].
  cbn [append]. rewrite contains_cons, IH;
    [|cbn [disjoint] in Hd; apply andb_prop in Hd; tauto | exact Hx].
  rewrite orb_false_r.
  destruct pat as [|d q]; [rewrite contains_nil_l in Hx; discriminate|].
  cbn [starts_with]. destruct (Ascii.eqb_spec d c) as [->|]; [|reflexivity].
  exfalso. exact (disjoint_head c r (String c q) Hd q eq_refl).
Qed.

(** *** [str.replace] *)

Section Replace.
Variables old new : string.
Hypothesis new_nonempty : new <> "".

Lemma replace_go_prefix : forall s q, disjoint new q = true ->
  starts_with q (replace_go old new s 0) = true -> starts_with q s = true.
Proof.
  induction s as [|c s IH]; intros q Hd H; [exact H|].
  cbn [replace_go] in H.
  destruct q as [|d q]; [reflexivity|].
  destruct (starts_with old (String c s)).
  - destruct new as [|n0 new'] eqn:En; [congruence|].
    cbn [append starts_with] in H. apply andb_prop in H as [H _].
    apply Ascii.eqb_eq in H. subst d.
    exfalso. exact (disjoint_head n0 new' (String n0 q) Hd q eq_refl).
  - cbn [starts_with] in *. apply andb_prop in H as [H1 H2].
    rewrite H1. apply IH; [eapply disjoint_tail; eassumption|exact H2].
Qed.

Lemma replace_go_prefix_cons : forall q c s, disjoint new q = true ->
  starts_with q (String c (replace_go old new s 0)) = true -> starts_with q (String c s) = true.
Proof.
  intros [|d q] c s Hd H; [reflexivity|].
  cbn [starts_with] in *. apply andb_prop in H as [H1 H2]. rewrite H1.
  apply (replace_go_prefix s q); [eapply disjoint_tail; eassumption|exact H2].
Qed.

Lemma replace_keeps_absent (pat : string) : disjoint new pat = true ->
  forall s k, contains pat s = false -> contains pat (replace_go old new s k) = false.
Proof.
  intros Hd. induction s as [|c s IH]; intros k H; [exact H|].
  rewrite contains_cons in H. apply orb_false_iff in H as [Hst Hs].
  destruct k as [|k]; cbn [replace_go]; [|auto].
  destruct (starts_with old (String c s)).
  - apply contains_app_disjoint; auto.
  - rewrite contains_cons, IH by exact Hs. rewrite orb_false_r.
    destruct (starts_with pat (String c (replace_go old new s 0))) eqn:Eq; [|reflexivity].
    apply replace_go_prefix_cons in Eq; congruence.
Qed.

Lemma replace_removes : old <> "" -> disjoint new old = true ->
  forall s k, contains old (replace_go old new s k) = false.
Proof.
  intros Hold Hd. induction s as [|c s IH]; intro k; [now apply contains_nil_r|].
  destruct k as [|k]; cbn [replace_go]; [|auto].
  destruct (starts_with old (String c s)) eqn:Est.
  - apply contains_app_disjoint; auto.
  - rewrite contains_cons, IH. rewrite orb_false_r.
    destruct (starts_with old (String c (replace_go old new s 0))) eqn:Eq; [|reflexivity].
    apply replace_go_prefix_cons in Eq; congruence.
Qed.

End Replace.

Lemma replace_absent_id (old new : string) : forall s,
  contains old s = false -> replace_go old new s 0 = s.
Proof.
  induction s as [|c s IH]; intro H; [reflexivity|].
  rewrite contains_cons in H. apply orb_false_iff in H as [H1 H2].
  cbn [replace_go]. rewrite H1, IH by exact H2. reflexivity.
Qed.

Section ReplaceLength.
Variables old new : string.
Hypothesis old_nonempty : old <> "".

Lemma replace_go_length_le : (String.length new <= String.length old)%nat ->
  forall s k, (k <= String.length s)%nat ->
  (String.length (replace_go old new s k) + k <= String.length s)%nat.
Proof.
  intros Hl. induction s as [|c s IH]; intros k Hk; cbn [replace_go String.length] in *.
  - lia.
  - destruct k as [|k]; [|specialize (IH k ltac:(lia)); lia].
    destruct (starts_with old (String c s)) eqn:Est.
    + apply starts_with_length in Est. cbn [String.length] in Est.
      rewrite str_length_app.
      assert (Hp : String.length old <> 0%nat) by (destruct old; simpl; [congruence|lia]).
      specialize (IH (String.length old - 1)%nat ltac:(lia)). lia.
    + specialize (IH 0%nat ltac:(lia)). cbn [String.length]. lia.
Qed.

Lemma replace_go_length_lt : (String.length new < String.length old)%nat ->
  forall s, contains old s = true ->
  (String.length (replace_go old new s 0) < String.length s)%nat.
Proof.
  intros Hl. induction s as [|c s IH]; intro H.
  - rewrite contains_nil_r in H by assumption. discriminate.
  - cbn [replace_go String.length]. rewrite contains_cons in H.
    destruct (starts_with old (String c s)) eqn:Est.
    + pose proof (starts_with_length _ _ Est) as Hle. cbn [String.length] in Hle.
      rewrite str_length_app.
      pose proof (replace_go_length_le ltac:(lia) s (String.length old - 1)%nat
                    ltac:(lia)). lia.
    + cbn [orb] in H. specialize (IH H). cbn [String.length]. lia.
Qed.

(** The loop [while old in s: s = s.replace(old, new)] stops within
    [len(s)] rounds. *)
Lemma while_replace_done : (String.length new < String.length old)%nat ->
  forall n s, (String.length s <= n)%nat -> contains old (while_replace n old new s) = false.
Proof.
  intros Hl. induction n as [|n IH]; intros s Hs; cbn [while_replace].
  - destruct s; [now apply contains_nil_r|simpl in Hs; lia].
  - destruct (contains old s) eqn:E; [|exact E].
    apply IH. pose proof (replace_go_length_lt Hl s E). unfold str_replace. lia.
Qed.

End ReplaceLength.

Lemma while_replace_absent_id (old new s : string) n :
  contains old s = false -> while_replace n old new s = s.
Proof. intro H. destruct n; cbn [while_replace]; [|rewrite H]; reflexivity. Qed.

Lemma while_replace_preserves (P : string -> Prop) (old new : string) :
  (forall s, P s -> P (str_replace old new s)) ->
  forall n s, P s -> P (while_replace n old new s).
Proof.
  intros Hstep. induction n as [|n IH]; intros s Hs; cbn [while_replace]; [exact Hs|].
  destruct (contains old s); auto.
Qed.

Lemma while_replace_keeps_absent (old new pat : string) :
  new <> "" -> disjoint new pat = true ->
  forall n s, contains pat s = false -> contains pat (while_replace n old new s) = false.
Proof.
  intros Hn Hd n s.
  apply (while_replace_preserves (fun v => contains pat v = false) old new).
  intros v Hv. now apply replace_keeps_absent.
Qed.

(** *** [strip], [split] and [join] *)

Lemma lstrip_suffix (y : string) : exists a, y = a ++ lstrip y.
Proof.
  induction y as [|c y [a IH]]; [exists ""; reflexivity|].
  cbn [lstrip]. destruct (is_space c).
  - exists (String c a). cbn [append]. congruence.
  - exists "". reflexivity.
Qed.

Lemma rstrip_prefix (y : string) : exists b, y = rstrip y ++ b.
Proof.
  induction y as [|c y [b IH]]; [exists ""; reflexivity|].
  cbn [rstrip]. destruct (rstrip y) as [|d r] eqn:E.
  - destruct (is_space c).
    + exists (String c y). reflexivity.
    + exists b. cbn [append] in *. congruence.
  - exists b. rewrite IH at 1. reflexivity.
Qed.

Lemma lstrip_head (y : string) :
  lstrip y = "" \/ exists c r, lstrip y = String c r /\ is_space c = false.
Proof.
  induction y as [|c y IH]; [now left|].
  cbn [lstrip]. destruct (is_space c) eqn:E; [exact IH|right; eauto].
Qed.

Lemma rstrip_cons (c : ascii) (r : string) :
  rstrip (String c r) =
  match rstrip r with
  | EmptyString => if is_space c then EmptyString else String c EmptyString
  | _ => String c (rstrip r)
  end.
Proof. reflexivity. Qed.

Lemma rstrip_idem (y : string) : rstrip (rstrip y) = rstrip y.
Proof.
  induction y as [|c y IH]; [reflexivity|].
  cbn [rstrip]. destruct (rstrip y) as [|d r] eqn:E.
  - destruct (is_space c) eqn:Ec; [reflexivity|].
    cbn [rstrip]. rewrite Ec. reflexivity.
  - rewrite rstrip_cons, IH. reflexivity.
Qed.

Lemma lstrip_rstrip (c : ascii) (r : string) : is_space c = false ->
  lstrip (rstrip (String c r)) = rstrip (String c r).
Proof.
  intro Hc. cbn [rstrip]. destruct (rstrip r) as [|d r'].
  - rewrite Hc. cbn [lstrip]. rewrite Hc. reflexivity.
  - cbn [lstrip]. rewrite Hc. reflexivity.
Qed.

Lemma strip_fixed (y : string) :
  lstrip (strip y) = strip y /\ rstrip (strip y) = strip y.
Proof.
  unfold strip. split; [|apply rstrip_idem].
  destruct (lstrip_head y) as [->|(c & r & -> & Hc)]; [reflexivity|].
  now apply lstrip_rstrip.
Qed.

Lemma strip_sub (y : string) : exists a b, y = a ++ strip y ++ b.
Proof.
  destruct (lstrip_suffix y) as [a Ha]. destruct (rstrip_prefix (lstrip y)) as [b Hb].
  exists a, b. unfold strip. rewrite <- Hb. exact Ha.
Qed.

Lemma contains_strip (pat y : string) :
  contains pat y = false -> contains pat (strip y) = false.
Proof.
  intro H. destruct (strip_sub y) as (a & b & E). rewrite E in H.
  exact (contains_sub_false _ _ _ _ H).
Qed.

Lemma contains1_app (c : ascii) (a b : string) :
  contains (String c "") (a ++ b) = contains (String c "") a || contains (String c "") b.
Proof.
  induction a as [|d a IH]; [reflexivity|].
  cbn [append]. rewrite !contains_cons, IH. cbn [starts_with].
  rewrite !andb_true_r. apply orb_assoc.
Qed.

Lemma split_aux_sub (sep : ascii) : forall s acc l,
  In l (split_aux sep s acc) -> exists a b, acc ++ s = a ++ l ++ b.
Proof.
  induction s as [|c s IH]; intros acc l Hin; cbn [split_aux] in Hin.
  - destruct Hin as [<-|[]]. exists "", "". cbn [append]. now rewrite !str_app_nil_r.
  - destruct (Ascii.eqb c sep).
    + destruct Hin as [<-|Hin].
      * exists "", (String c s). reflexivity.
      * destruct (IH "" l Hin) as (a & b & E). cbn [append] in E.
        exists (acc ++ String c a), b. rewrite E, str_app_assoc. reflexivity.
    + destruct (IH _ l Hin) as (a & b & E). exists a, b.
      rewrite <- E, str_app_assoc. reflexivity.
Qed.

Lemma split_aux_no_sep (sep : ascii) : forall s acc l,
  contains (String sep "") acc = false -> In l (split_aux sep s acc) ->
  contains (String sep "") l = false.
Proof.
  induction s as [|c s IH]; intros acc l Hacc Hin; cbn [split_aux] in Hin.
  - destruct Hin as [<-|[]]. exact Hacc.
  - destruct (Ascii.eqb c sep) eqn:E.
    + destruct Hin as [<-|Hin]; [exact Hacc|]. eapply IH; [|exact Hin]; reflexivity.
    + eapply IH; [|exact Hin]. rewrite contains1_app, Hacc. cbn.
      rewrite Ascii.eqb_sym, E. reflexivity.
Qed.

Lemma chain_ok_app_nl (prev : ascii) (a b : string) :
  chain_ok prev (a ++ String nl_c b) = chain_ok prev a && chain_ok nl_c b.
Proof.
  revert prev; induction a as [|c a IH]; intro prev; [reflexivity|].
  cbn [append chain_ok]. rewrite IH. apply andb_assoc.
Qed.

Lemma split_aux_chain : forall s acc l,
  chain_ok nl_c (acc ++ s) = true -> In l (split_aux nl_c s acc) -> chain_ok nl_c l = true.
Proof.
  induction s as [|c s IH]; intros acc l H Hin; cbn [split_aux] in Hin.
  - destruct Hin as [<-|[]]. now rewrite str_app_nil_r in H.
  - destruct (Ascii.eqb_spec c nl_c) as [->|Hc].
    + rewrite chain_ok_app_nl in H. apply andb_prop in H as [H1 H2].
      destruct Hin as [<-|Hin]; [exact H1|]. eapply IH; [|exact Hin]; exact H2.
    + eapply IH; [|exact Hin]. rewrite str_app_assoc. exact H.
Qed.

Lemma concat_nl_chain : forall L,
  (forall l, In l L -> chain_ok nl_c l = true) -> chain_ok nl_c (String.concat nl L) = true.
Proof.
  induction L as [|x [|y L] IH]; intro H; [reflexivity| apply H; now left|].
  rewrite concat_cons by discriminate. unfold nl. cbn [append].
  rewrite chain_ok_app_nl, H by (now left). apply IH.
  intros l Hl. apply H. now right.
Qed.

Lemma starts_with_across (pat a : string) (d : ascii) (x : string) :
  starts_with pat (a ++ String d x) = true -> starts_with pat a = false ->
  contains (String d "") pat = true.
Proof.
  revert pat; induction a as [|c a IH]; intros [|e q] H1 H2; try discriminate.
  - cbn [append starts_with] in H1. apply andb_prop in H1 as [H1 _].
    apply Ascii.eqb_eq in H1. subst e. cbn. now rewrite ascii_eqb_refl.
  - cbn [append starts_with] in H1, H2. apply andb_prop in H1 as [H1 H3].
    rewrite H1 in H2. cbn [andb] in H2.
    rewrite contains_cons, (IH q H3 H2). apply orb_true_r.
Qed.

Lemma contains_sep_cons (pat : string) (d : ascii) (x : string) :
  contains (String d "") pat = false -> contains pat x = false ->
  contains pat (String d x) = false.
Proof.
  intros Hd Hx. rewrite contains_cons, Hx, orb_false_r.
  destruct pat as [|e q]; [rewrite contains_nil_l in Hx; discriminate|].
  cbn [starts_with]. destruct (Ascii.eqb_spec e d) as [->|]; [|reflexivity].
  cbn in Hd. now rewrite ascii_eqb_refl in Hd.
Qed.

Lemma contains_app_sep (pat a : string) (d : ascii) (x : string) :
  contains (String d "") pat = false -> contains pat a = false ->
  contains pat (String d x) = false -> contains pat (a ++ String d x) = false.
Proof.
  intros Hd. induction a as [|c a IH]; intros Ha Hx; [exact Hx|].
  rewrite contains_cons in Ha. apply orb_false_iff in Ha as [Ha1 Ha2].
  cbn [append]. rewrite contains_cons, IH by assumption. rewrite orb_false_r.
  destruct (starts_with pat (String c (a ++ String d x))) eqn:E; [|reflexivity].
  exfalso. change (String c (a ++ String d x)) with (String c a ++ String d x) in E.
  rewrite (starts_with_across _ _ _ _ E Ha1) in Hd. discriminate.
Qed.

Lemma concat_nl_absent (pat : string) : pat <> "" -> contains nl pat = false ->
  forall L, (forall l, In l L -> contains pat l = false) ->
  contains pat (String.concat nl L) = false.
Proof.
  intros Hp Hnl. induction L as [|x [|y L] IH]; intro H;
    [now apply contains_nil_r| apply H; now left|].
  rewrite concat_cons by discriminate. unfold nl. cbn [append].
  apply contains_app_sep; [exact Hnl|apply H; now left|].
  apply contains_sep_cons; [exact Hnl|]. apply IH. intros l Hl. apply H. now right.
Qed.

(** *** Clean lines *)

Lemma no_nl_head (c : ascii) (r : string) :
  contains nl (String c r) = false -> Ascii.eqb nl_c c = false /\ contains nl r = false.
Proof.
  intro H. rewrite contains_cons in H. apply orb_false_iff in H as [H1 H2].
  unfold nl in H1. cbn [starts_with] in H1. now rewrite andb_true_r in H1.
Qed.

Lemma chain_no_double_space : forall l prev, chain_ok prev l = true -> contains "  " l = false.
Proof.
  induction l as [|c l IH]; intros prev H; [reflexivity|].
  cbn [chain_ok] in H. apply andb_prop in H as [_ H].
  rewrite contains_cons, (IH c H), orb_false_r.
  destruct l as [|d l]; cbn [starts_with]; [now rewrite andb_false_r|].
  cbn [chain_ok] in H. apply andb_prop in H as [H _]. unfold pair_ok in H.
  destruct (Ascii.eqb " " c), (Ascii.eqb " " d); cbn in *; congruence.
Qed.

Lemma chain_rstrip : forall l prev, contains nl l = false -> chain_ok prev l = true ->
  rstrip l = l.
Proof.
  induction l as [|c l IH]; intros prev Hnl H; [reflexivity|].
  apply no_nl_head in Hnl as [Hc Hnl].
  cbn [chain_ok] in H. apply andb_prop in H as [_ H].
  rewrite rstrip_cons, (IH c Hnl H).
  destruct l as [|d l]; [|reflexivity].
  cbn [chain_ok] in H. unfold pair_ok in H. rewrite Hc in H.
  destruct (is_space c); [|reflexivity].
  cbn in H. now rewrite andb_false_r in H.
Qed.

Lemma chain_lstrip (l : string) : contains nl l = false -> chain_ok nl_c l = true ->
  lstrip l = l.
Proof.
  destruct l as [|c l]; intros Hnl H; [reflexivity|].
  apply no_nl_head in Hnl as [Hc _].
  cbn [chain_ok] in H. apply andb_prop in H as [H _]. unfold pair_ok in H.
  rewrite Hc in H. cbn [lstrip].
  destruct (is_space c); [|reflexivity]. destruct (Ascii.eqb " " c); cbn in H; discriminate.
Qed.

(** A line of the cleaned text is left as it is by [clean_line]. *)
Lemma chain_clean_line (l : string) : contains nl l = false -> chain_ok nl_c l = true ->
  clean_line l = l.
Proof.
  intros Hnl H. unfold clean_line, collapse_spaces.
  rewrite while_replace_absent_id by exact (chain_no_double_space l nl_c H).
  unfold strip. rewrite (chain_lstrip l Hnl H). exact (chain_rstrip l nl_c Hnl H).
Qed.

Lemma lstrip_length (y : string) : (String.length (lstrip y) <= String.length y)%nat.
Proof.
  destruct (lstrip_suffix y) as [a Ha]. rewrite Ha at 2. rewrite str_length_app. lia.
Qed.

Lemma line_chain_aux : forall r c,
  contains nl (String c r) = false -> contains "  " (String c r) = false ->
  rstrip (String c r) = String c r -> chain_ok c r = true.
Proof.
  induction r as [|d r IH]; intros c Hnl Hsp Hr.
  - apply no_nl_head in Hnl as [Hc _].
    rewrite rstrip_cons in Hr. cbn [rstrip] in Hr.
    destruct (is_space c) eqn:Es; [discriminate|].
    cbn [chain_ok]. unfold pair_ok. rewrite Hc, Es.
    destruct (Ascii.eqb " " c); reflexivity.
  - apply no_nl_head in Hnl as [Hc Hnl].
    pose proof Hnl as Hnl'. apply no_nl_head in Hnl' as [Hd _].
    rewrite contains_cons in Hsp. apply orb_false_iff in Hsp as [Hsp1 Hsp2].
    cbn [starts_with] in Hsp1.
    rewrite rstrip_cons in Hr.
    destruct (rstrip (String d r)) as [|e r'] eqn:Er.
    + destruct (is_space c); discriminate.
    + injection Hr as He Hr'. subst e r'.
      cbn [chain_ok]. rewrite (IH d Hnl Hsp2 Er), andb_true_r.
      unfold pair_ok. rewrite Hc, Hd.
      destruct (Ascii.eqb " " c), (Ascii.eqb " " d), (is_space c), (is_space d);
        cbn in *; congruence.
Qed.

Lemma line_chain (z : string) : contains nl z = false -> contains "  " z = false ->
  lstrip z = z -> rstrip z = z -> chain_ok nl_c z = true.
Proof.
  destruct z as [|c r]; intros Hnl Hsp Hl Hr; [reflexivity|].
  cbn [chain_ok]. rewrite (line_chain_aux r c Hnl Hsp Hr), andb_true_r.
  apply no_nl_head in Hnl as [Hc _].
  cbn [lstrip] in Hl. destruct (is_space c) eqn:Es.
  - pose proof (lstrip_length r) as Hlen. rewrite Hl in Hlen. cbn in Hlen. lia.
  - unfold pair_ok. rewrite Hc, Es. reflexivity.
Qed.

Lemma clean_line_chain (x : string) : contains nl x = false -> chain_ok nl_c (clean_line x) = true.
Proof.
  intro Hnl. unfold clean_line, collapse_spaces.
  set (y := while_replace (String.length x) "  " " " x).
  assert (Hy1 : contains "  " y = false)
    by (apply while_replace_done; [discriminate|cbn; lia|lia]).
  assert (Hy2 : contains nl y = false)
    by (apply while_replace_keeps_absent; [discriminate|reflexivity|exact Hnl]).
  destruct (strip_fixed y) as [Hl Hr].
  apply line_chain; auto using contains_strip.
Qed.

Lemma clean_line_absent (pat x : string) : disjoint " " pat = true ->
  contains pat x = false -> contains pat (clean_line x) = false.
Proof.
  intros Hd H. unfold clean_line, collapse_spaces. apply contains_strip.
  apply while_replace_keeps_absent; [discriminate|exact Hd|exact H].
Qed.

(** *** The three-newline collapse *)

Lemma chain_replace_newlines : forall n s prev, (String.length s <= n)%nat ->
  chain_ok prev s = true ->
  chain_ok prev (replace_go (nl ++ nl ++ nl) (nl ++ nl) s 0) = true.
Proof.
  induction n as [|n IH]; intros s prev Hlen H;
    [destruct s; [exact H|cbn in Hlen; lia]|].
  destruct s as [|c s]; [exact H|]. cbn [replace_go].
  destruct (starts_with (nl ++ nl ++ nl) (String c s)) eqn:E.
  - pose proof (starts_with_length _ _ E) as Hl3.
    destruct s as [|c2 [|c3 rest]]; [cbn in Hl3; lia|cbn in Hl3; lia|].
    unfold nl in E |- *. cbn [append starts_with] in E.
    rewrite !andb_true_r in E. apply andb_prop in E as [E1 E].
    apply andb_prop in E as [E2 E3].
    apply Ascii.eqb_eq in E1, E2, E3. subst c c2 c3.
    cbn [replace_go append String.length Nat.sub].
    cbn [chain_ok] in H |- *. apply andb_prop in H as [H1 H].
    apply andb_prop in H as [H2 H]. apply andb_prop in H as [_ H4].
    rewrite H1, H2. apply IH; [cbn in Hlen; lia|exact H4].
  - cbn [chain_ok] in H |- *. apply andb_prop in H as [H1 H2].
    rewrite H1. apply IH; [cbn in Hlen; lia|exact H2].
Qed.

Lemma chain_collapse_newlines (v : string) : chain_ok nl_c v = true ->
  chain_ok nl_c (collapse_newlines v) = true.
Proof.
  intro H. unfold collapse_newlines.
  apply (while_replace_preserves (fun w => chain_ok nl_c w = true)); [|exact H].
  intros s Hs. exact (chain_replace_newlines _ s nl_c (le_n _) Hs).
Qed.

Lemma chain_no_crlf : forall v prev, chain_ok prev v = true -> contains (cr ++ nl) v = false.
Proof.
  induction v as [|c v IH]; intros prev H; [reflexivity|].
  cbn [chain_ok] in H. apply andb_prop in H as [_ H].
  rewrite contains_cons, (IH c H), orb_false_r.
  unfold cr, nl. cbn [append starts_with].
  destruct (Ascii.eqb_spec "013" c) as [<-|]; [|reflexivity]. cbn [andb].
  destruct v as [|d v]; [reflexivity|]. cbn [chain_ok] in H.
  rewrite andb_true_r. destruct (Ascii.eqb_spec nl_c d) as [<-|]; [|reflexivity].
  apply andb_prop in H as [H _]. discriminate.
Qed.

(** *** The output of [clean_text] *)

Lemma escape_patterns_facts (pat : string) : In pat escape_patterns ->
  pat <> "" /\ contains nl pat = false /\ disjoint " " pat = true /\
  disjoint (nl ++ nl) pat = true.
Proof.
  intro Hin. cbn [escape_patterns In] in Hin.
  destruct Hin as [<-|[<-|[<-|[<-|[<-|[]]]]]]; repeat split; (discriminate || reflexivity).
Qed.

Ltac replace_chain :=
  unfold str_replace;
  repeat first
    [ apply replace_removes; [discriminate|discriminate|reflexivity]
    | apply replace_keeps_absent; [discriminate|reflexivity|] ].

Lemma apply_replacements_absent (s pat : string) : In pat escape_patterns ->
  contains pat (apply_replacements s) = false.
Proof.
  intro Hin. unfold apply_replacements, replacements. cbn [fold_left].
  cbn [escape_patterns In] in Hin.
  destruct Hin as [<-|[<-|[<-|[<-|[<-|[]]]]]]; replace_chain.
Qed.

Lemma clean_text_inv (s : string) : clean_inv (clean_text s).
Proof.
  unfold clean_text. set (cleaned := collapse_newlines (apply_replacements s)).
  assert (Hlines : forall x, In x (split_lines cleaned) -> contains nl x = false)
    by (intros x Hx; exact (split_aux_no_sep nl_c cleaned "" x eq_refl Hx)).
  split.
  - apply concat_nl_chain. intros l Hl. apply in_map_iff in Hl as (x & <- & Hx).
    apply clean_line_chain, Hlines, Hx.
  - intros pat Hpat.
    destruct (escape_patterns_facts pat Hpat) as (Hne & Hnl & Hsp & Hnn).
    apply concat_nl_absent; [exact Hne|exact Hnl|].
    intros l Hl. apply in_map_iff in Hl as (x & <- & Hx).
    apply clean_line_absent; [exact Hsp|].
    destruct (split_aux_sub nl_c cleaned "" x Hx) as (a & b & E).
    apply (contains_sub_false pat a x b). rewrite <- E. cbn [append].
    apply while_replace_keeps_absent; [discriminate|exact Hnn|].
    now apply apply_replacements_absent.
Qed.

Lemma collapse_newlines_inv (v : string) : clean_inv v -> clean_inv (collapse_newlines v).
Proof.
  intros [Hc Hp]. split; [now apply chain_collapse_newlines|].
  intros pat Hpat. destruct (escape_patterns_facts pat Hpat) as (_ & _ & _ & Hnn).
  apply while_replace_keeps_absent; [discriminate|exact Hnn|now apply Hp].
Qed.

Lemma apply_replacements_id (v : string) : clean_inv v -> apply_replacements v = v.
Proof.
  intros [Hc Hp].
  assert (H1 : contains "_x000A" v = false) by (apply Hp; cbn; tauto).
  assert (H2 : contains "_x000D" v = false) by (apply Hp; cbn; tauto).
  assert (H3 : contains "_x000B" v = false) by (apply Hp; cbn; tauto).
  assert (H4 : contains "_x0009" v = false) by (apply Hp; cbn; tauto).
  assert (H5 : contains vt v = false) by (apply Hp; cbn; tauto).
  assert (H6 : contains (cr ++ nl) v = false) by exact (chain_no_crlf v nl_c Hc).
  unfold apply_replacements, replacements. cbn [fold_left]. unfold str_replace.
  rewrite (replace_absent_id "_x000A" nl v H1), (replace_absent_id "_x000D" cr v H2),
    (replace_absent_id "_x000B" nl v H3), (replace_absent_id "_x0009" tab v H4),
    (replace_absent_id vt nl v H5), (replace_absent_id (cr ++ nl) nl v H6).
  reflexivity.
Qed.

(** On text that satisfies [clean_inv], [clean_text] only collapses
    runs of three or more newlines. *)
Lemma clean_inv_fixed (v : string) : clean_inv v -> clean_text v = collapse_newlines v.
Proof.
  intro Hv. unfold clean_text. rewrite (apply_replacements_id v Hv).
  destruct (collapse_newlines_inv v Hv) as [Hc _].
  set (u := collapse_newlines v) in *.
  assert (Hmap : map clean_line (split_lines u) = split_lines u).
  { rewrite <- (map_id (split_lines u)) at 2. apply map_ext_in. intros l Hl.
    apply chain_clean_line.
    - exact (split_aux_no_sep nl_c u "" l eq_refl Hl).
    - exact (split_aux_chain u "" l Hc Hl). }
  rewrite Hmap. exact (split_aux_join nl_c u "").
Qed.

(** X16: a second [clean_text] changes the output of the first only by
    collapsing runs of three or more newlines (the runs the first pass
    leaves when it strips whitespace-only lines after its collapse), and
    it changes nothing when the first output holds no such run; a third
    pass changes nothing at all. *)
Theorem clean_text_second_pass (s : string) :
  clean_text (clean_text s) = collapse_newlines (clean_text s) /\
  (contains (nl ++ nl ++ nl) (clean_text s) = false ->
   clean_text (clean_text s) = clean_text s) /\
  clean_text (clean_text (clean_text s)) = clean_text (clean_text s).
Proof.
  pose proof (clean_text_inv s) as Ht. set (t := clean_text s) in *.
  assert (H1 : clean_text t = collapse_newlines t) by exact (clean_inv_fixed t Ht).
  split; [exact H1|split].
  - intro H. rewrite H1. unfold collapse_newlines. now apply while_replace_absent_id.
  - rewrite H1. rewrite (clean_inv_fixed _ (collapse_newlines_inv t Ht)).
    unfold collapse_newlines at 1. apply while_replace_absent_id.
    unfold collapse_newlines. apply while_replace_done; [discriminate|cbn; lia|lia].
Qed.

Lemma clean_text_second_pass_witness :
  contains (nl ++ nl ++ nl) (clean_text (" a  b" ++ nl ++ nl ++ "c ")) = false /\
  clean_text (clean_text (" a  b" ++ nl ++ nl ++ "c ")) =
  clean_text (" a  b" ++ nl ++ nl ++ "c ").
Proof.
  split; [vm_compute; reflexivity|].
  apply (proj1 (proj2 (clean_text_second_pass (" a  b" ++ nl ++ nl ++ "c ")))).
  vm_compute. reflexivity.
Defined.

(** * Further properties of the code *)

(** ** [get_score_color] *)

(** X1: [get_score_color] first applies [int]; on the integer [z] it
    obtained, the colour is the gray ['#6c757d'] exactly when [z] lies
    outside 1-5, the five scores 1-5 get five different colours, and an
    exception of [int] propagates unchanged. *)
Theorem get_score_color_spec (v : pyval) :
  (forall z, py_int v = Ok z ->
     (get_score_color v = Ok "#6c757d" <-> z < 1 \/ 5 < z) /\
     (1 <= z <= 5 ->
        get_score_color v =
        Ok (nth (Z.to_nat (z - 1)) ["#dc3545"; "#fd7e8a"; "#ffc107"; "#90ee90"; "#28a745"] ""))) /\
  (forall w z1 z2, py_int v = Ok z1 -> py_int w = Ok z2 -> 1 <= z1 <= 5 -> 1 <= z2 <= 5 ->
     (get_score_color v = get_score_color w <-> z1 = z2)) /\
  (forall e, py_int v = Err e -> get_score_color v = Err e).
Proof.
  unfold get_score_color. split; [|split].
  - intros z Hz. rewrite Hz. cbn [bind]. split.
    + destruct (Z.eqb_spec z 1); [subst; split; [discriminate|lia]|].
      destruct (Z.eqb_spec z 2); [subst; split; [discriminate|lia]|].
      destruct (Z.eqb_spec z 3); [subst; split; [discriminate|lia]|].
      destruct (Z.eqb_spec z 4); [subst; split; [discriminate|lia]|].
      destruct (Z.eqb_spec z 5); [subst; split; [discriminate|lia]|].
      split; [intros _; lia|reflexivity].
    + intros Hr.
      assert (Hc : z = 1 \/ z = 2 \/ z = 3 \/ z = 4 \/ z = 5) by lia.
      destruct Hc as [->|[->|[->|[->| ->]]]]; reflexivity.
  - intros w z1 z2 H1 H2 Hr1 Hr2. rewrite H1, H2. cbn [bind].
    split; [|intros ->; reflexivity].
    assert (Hc1 : z1 = 1 \/ z1 = 2 \/ z1 = 3 \/ z1 = 4 \/ z1 = 5) by lia.
    assert (Hc2 : z2 = 1 \/ z2 = 2 \/ z2 = 3 \/ z2 = 4 \/ z2 = 5) by lia.
    destruct Hc1 as [->|[->|[->|[->| ->]]]]; destruct Hc2 as [->|[->|[->|[->| ->]]]];
      cbn; intro H; try reflexivity; discriminate H.
  - intros e He. now rewrite He.
Qed.

Lemma get_score_color_spec_witness :
  get_score_color (VFloat (37 # 10)) = Ok "#ffc107" /\
  get_score_color (VStr "7") = Ok "#6c757d".
Proof.
  split.
  - apply (proj2 (proj1 (get_score_color_spec (VFloat (37 # 10))) 3 eq_refl)); lia.
  - apply (proj1 (proj1 (get_score_color_spec (VStr "7")) 7 eq_refl)); lia.
Defined.

(** ** [get_transitiefase] outside the claimed range *)

Lemma quot_rem_bounds (n d : Z) : 0 < d ->
  n = d * Z.quot n d + Z.rem n d /\
  (0 <= n -> 0 <= Z.rem n d < d) /\ (n < 0 -> - d < Z.rem n d <= 0).
Proof.
  intro Hd. split; [apply Z.quot_rem'|split].
  - intro Hn. now apply Z.rem_bound_pos.
  - intro Hn. replace n with (- (- n)) by lia.
    rewrite Z.rem_opp_l by lia.
    pose proof (Z.rem_bound_pos (- n) d ltac:(lia) Hd). lia.
Qed.

Lemma q_int_ge (k : Z) (q : Q) : 1 <= k -> (k <= q_int q <-> (inject_Z k <= q)%Q).
Proof.
  destruct q as [n d]. unfold q_int, Qle, inject_Z; cbn [Qnum Qden]. intro Hk.
  destruct (quot_rem_bounds n (Zpos d) eq_refl) as (He & Hp & Hm).
  set (t := Z.quot n (Zpos d)) in *. set (r := Z.rem n (Zpos d)) in *.
  destruct (Z.le_gt_cases 0 n) as [Hn|Hn].
  - specialize (Hp Hn). split; intro H; nia.
  - specialize (Hm Hn). split; intro H; nia.
Qed.

Lemma q_int_le_m1 (q : Q) : q_int q <= -1 <-> (q <= -1)%Q.
Proof.
  destruct q as [n d]. unfold q_int, Qle; cbn [Qnum Qden].
  destruct (quot_rem_bounds n (Zpos d) eq_refl) as (He & Hp & Hm).
  set (t := Z.quot n (Zpos d)) in *. set (r := Z.rem n (Zpos d)) in *.
  destruct (Z.le_gt_cases 0 n) as [Hn|Hn].
  - specialize (Hp Hn). split; intro H; nia.
  - specialize (Hm Hn). split; intro H; nia.
Qed.

(** X2: [get_transitiefase] on totals that are not integers in 0-40: an
    integer outside 0-40 gives "Onbekend"; a finite float ([VFloat q]
    stands for the float of value [q]; [inf] and [nan], on which [int]
    raises, are not among them) is truncated toward zero, so the float
    buckets are (-1, 15), [15, 23), [23, 31), [31, 37), [37, 41), and
    every other finite float gives "Onbekend"; an ASCII string [int]
    cannot parse (such as "14.5") raises ValueError, and [None] or a
    JSON list or object raises TypeError. *)
Theorem get_transitiefase_edges :
  (forall T, T < 0 \/ 40 < T -> get_transitiefase (VInt T) = Ok "Onbekend") /\
  (forall q, (-1 < q)%Q -> (q < 15)%Q -> get_transitiefase (VFloat q) = Ok "Startfase") /\
  (forall q, (15 <= q)%Q -> (q < 23)%Q -> get_transitiefase (VFloat q) = Ok "Aan de slag") /\
  (forall q, (23 <= q)%Q -> (q < 31)%Q -> get_transitiefase (VFloat q) = Ok "Op de kaart") /\
  (forall q, (31 <= q)%Q -> (q < 37)%Q -> get_transitiefase (VFloat q) = Ok "In control") /\
  (forall q, (37 <= q)%Q -> (q < 41)%Q -> get_transitiefase (VFloat q) = Ok "Voorloper") /\
  (forall q, (q <= -1)%Q \/ (41 <= q)%Q -> get_transitiefase (VFloat q) = Ok "Onbekend") /\
  (forall s, isascii s = true -> parse_int s = None ->
     get_transitiefase (VStr s) = Err ValueError) /\
  get_transitiefase (VStr "14.5") = Err ValueError /\
  get_transitiefase VNone = Err TypeError /\ get_transitiefase VOther = Err TypeError.
Proof.
  assert (Hf : forall q, get_transitiefase (VFloat q) = Ok (transitiefase_of (q_int q)))
    by reflexivity.
  assert (Hlo : forall q, (-1 < q)%Q -> 0 <= q_int q).
  { intros q Hq. destruct (Z.le_gt_cases 0 (q_int q)) as [H|H]; [exact H|].
    exfalso. apply (Qlt_not_le _ _ Hq). apply q_int_le_m1. lia. }
  assert (Hhi : forall k q, 1 <= k -> (q < inject_Z k)%Q -> q_int q < k).
  { intros k q Hk Hq. destruct (Z.le_gt_cases k (q_int q)) as [H|H]; [|exact H].
    exfalso. apply (Qlt_not_le _ _ Hq). now apply q_int_ge. }
  assert (Hge : forall k q, 1 <= k -> (inject_Z k <= q)%Q -> k <= q_int q)
    by (intros k q Hk Hq; now apply q_int_ge).
  unfold transitiefase_of in Hf.
  split; [|split; [|split; [|split; [|split; [|split; [|split]]]]]].
  - intros T HT. unfold get_transitiefase, transitiefase_of; cbn [py_int bind].
    zleb_cases; cbn; try reflexivity; lia.
  - intros q H1 H2. rewrite Hf.
    pose proof (Hlo q H1). pose proof (Hhi 15 q ltac:(lia) H2). zleb_cases; cbn; lia || reflexivity.
  - intros q H1 H2. rewrite Hf.
    pose proof (Hge 15 q ltac:(lia) H1). pose proof (Hhi 23 q ltac:(lia) H2).
    zleb_cases; cbn; lia || reflexivity.
  - intros q H1 H2. rewrite Hf.
    pose proof (Hge 23 q ltac:(lia) H1). pose proof (Hhi 31 q ltac:(lia) H2).
    zleb_cases; cbn; lia || reflexivity.
  - intros q H1 H2. rewrite Hf.
    pose proof (Hge 31 q ltac:(lia) H1). pose proof (Hhi 37 q ltac:(lia) H2).
    zleb_cases; cbn; lia || reflexivity.
  - intros q H1 H2. rewrite Hf.
    pose proof (Hge 37 q ltac:(lia) H1). pose proof (Hhi 41 q ltac:(lia) H2).
    zleb_cases; cbn; lia || reflexivity.
  - intros q [H|H]; rewrite Hf.
    + apply q_int_le_m1 in H. zleb_cases; cbn; lia || reflexivity.
    + pose proof (Hge 41 q ltac:(lia) H). zleb_cases; cbn; lia || reflexivity.
  - split; [|split; [|split]]; try reflexivity.
    intros s _ Hs. unfold get_transitiefase; cbn [py_int]. now rewrite Hs.
Qed.

(** ** [generate_star_rating] outside 0-10 *)

Lemma star_norm_half (s : Q) : ((s / 10) * 5 == s * (1 # 2))%Q.
Proof. field. Qed.

Lemma to_nat_nonpos (z : Z) : z <= 0 -> Z.to_nat z = 0%nat.
Proof. intro H; destruct z; [reflexivity|lia|reflexivity]. Qed.

Lemma q_int_neg_rem (q : Q) : (q < 0)%Q -> (q - inject_Z (q_int q) <= 0)%Q.
Proof.
  destruct q as [n d]. unfold Qlt, Qle, Qminus, Qplus, Qopp, q_int, inject_Z.
  cbn [Qnum Qden]. intro Hn. rewrite !Pos.mul_1_r.
  destruct (quot_rem_bounds n (Zpos d) eq_refl) as (He & _ & Hm).
  set (t := Z.quot n (Zpos d)) in *. set (r := Z.rem n (Zpos d)) in *.
  specialize (Hm ltac:(lia)). nia.
Qed.

(** X3: The rating is only meant for 0-10.  For scores of magnitude at
    most 1000 (far below where Python's [str * n] overflows or runs out
    of memory; [inf] is not a score here): from a score of 10 on it has
    no hollow circle, [floor(norm)] filled circles and possibly a half
    one, and from 11 on it has six circles or more.  A negative score
    gives hollow circles only, [5 - int(norm)] of them (five or more,
    six or more from -2 down). *)
Theorem generate_star_rating_out_of_range (s : Q) :
  let norm := ((s / 10) * 5)%Q in
  ((10 <= s)%Q -> (s <= 1000)%Q ->
     fst (generate_star_rating s) =
       (repeat Filled (Z.to_nat (Qfloor norm)) ++
        (if Qle_bool (1 # 2) (norm - inject_Z (Qfloor norm)) then [Half] else []))%list) /\
  ((11 <= s)%Q -> (s <= 1000)%Q ->
     ~ In Hollow (fst (generate_star_rating s)) /\
     (6 <= length (fst (generate_star_rating s)))%nat) /\
  ((s < 0)%Q -> (-1000 <= s)%Q ->
     fst (generate_star_rating s) = repeat Hollow (Z.to_nat (5 - q_int norm)) /\
     (5 <= length (fst (generate_star_rating s)))%nat) /\
  ((s <= -2)%Q -> (-1000 <= s)%Q -> (6 <= length (fst (generate_star_rating s)))%nat).
Proof.
  intro norm.
  assert (Hhigh : (10 <= s)%Q ->
     fst (generate_star_rating s) =
       (repeat Filled (Z.to_nat (Qfloor norm)) ++
        (if Qle_bool (1 # 2) (norm - inject_Z (Qfloor norm)) then [Half] else []))%list /\
     5 <= Qfloor norm).
  { intro Hs.
    assert (Hn : (5 <= norm)%Q).
    { unfold norm. rewrite star_norm_half.
      apply (Qle_trans _ (10 * (1 # 2))); [discriminate|].
      apply Qmult_le_compat_r; [assumption|discriminate]. }
    assert (Hf : 5 <= Qfloor norm) by (change 5 with (Qfloor 5); now apply Qfloor_resp_le).
    assert (Hq : q_int norm = Qfloor norm)
      by (apply q_int_floor; apply (Qle_trans _ 5); [discriminate|exact Hn]).
    split; [|exact Hf].
    unfold generate_star_rating; fold norm; cbn [fst]. rewrite Hq.
    destruct (Qle_bool (1 # 2) (norm - inject_Z (Qfloor norm))); cbn [Z.eqb];
      rewrite (to_nat_nonpos (5 - _ - _)) by lia; cbn [repeat]; rewrite ?app_nil_r;
      reflexivity. }
  assert (Hneg : (s < 0)%Q ->
     fst (generate_star_rating s) = repeat Hollow (Z.to_nat (5 - q_int norm)) /\
     q_int norm <= 0).
  { intro Hs.
    assert (Hn : (norm < 0)%Q).
    { unfold norm. rewrite star_norm_half.
      apply (Qlt_le_trans _ (0 * (1 # 2))); [|discriminate].
      apply Qmult_lt_compat_r; [reflexivity|exact Hs]. }
    assert (Hq : q_int norm <= 0).
    { destruct (Z.le_gt_cases (q_int norm) 0) as [H|H]; [exact H|exfalso].
      assert (H1 : (inject_Z 1 <= norm)%Q) by (apply (q_int_ge 1 norm); lia).
      apply (Qlt_irrefl 0). apply (Qlt_trans _ norm); [|exact Hn].
      apply (Qlt_le_trans _ (inject_Z 1)); [reflexivity|exact H1]. }
    assert (Hb : Qle_bool (1 # 2) (norm - inject_Z (q_int norm)) = false).
    { destruct (Qle_bool (1 # 2) (norm - inject_Z (q_int norm))) eqn:E; [exfalso|reflexivity].
      apply Qle_bool_imp_le in E. pose proof (q_int_neg_rem norm Hn) as H.
      apply (Qle_not_lt _ _ (Qle_trans _ _ _ E H)). reflexivity. }
    split; [|exact Hq].
    unfold generate_star_rating; fold norm; cbn [fst]. rewrite Hb; cbn [Z.eqb].
    rewrite (to_nat_nonpos (q_int norm)) by exact Hq. rewrite Z.sub_0_r. reflexivity. }
  split; [|split; [|split]].
  - intros Hs _. exact (proj1 (Hhigh Hs)).
  - intros Hs _. destruct (Hhigh (Qle_trans _ _ _ (ltac:(discriminate) : (10 <= 11)%Q) Hs))
      as [He Hf].
    rewrite He. split.
    + intro H. apply in_app_iff in H as [H|H].
      * apply repeat_spec in H. discriminate.
      * destruct (Qle_bool _ _) in H; cbn in H; intuition discriminate.
    + rewrite length_app, repeat_length.
      destruct (Z.le_gt_cases 6 (Qfloor norm)) as [H6|H6].
      * destruct (Qle_bool _ _); cbn [length]; lia.
      * assert (Hf5 : Qfloor norm = 5) by lia. rewrite Hf5.
        replace (Qle_bool (1 # 2) (norm - inject_Z 5)) with true; [cbn; lia|].
        symmetry. apply Qle_bool_iff.
        assert (Hn : ((11 # 2) <= norm)%Q).
        { unfold norm. rewrite star_norm_half.
          apply (Qle_trans _ (11 * (1 # 2))); [discriminate|].
          apply Qmult_le_compat_r; [assumption|discriminate]. }
        apply (Qplus_le_l _ _ 5). ring_simplify. exact Hn.
  - intros Hs _. destruct (Hneg Hs) as [He Hq]. rewrite He, repeat_length. split; [reflexivity|lia].
  - intros Hs _.
    assert (Hs0 : (s < 0)%Q) by (apply (Qle_lt_trans _ (-2)); [exact Hs|reflexivity]).
    destruct (Hneg Hs0) as [He _]. rewrite He, repeat_length.
    assert (Hn : (norm <= -1)%Q).
    { unfold norm. rewrite star_norm_half.
      apply (Qle_trans _ ((-2) * (1 # 2))); [|discriminate].
      apply Qmult_le_compat_r; [assumption|discriminate]. }
    apply q_int_le_m1 in Hn. lia.
Qed.

(** ** What [clean_text] output never contains *)

(** X4: The text [clean_text] returns holds none of the escape sequences
    [_x000A], [_x000D], [_x000B], [_x0009] and no vertical tab, no
    ["\r\n"] and no two adjacent spaces, and each of its lines is its own
    [strip()]: no line begins or ends with whitespace. *)
Theorem clean_text_output (s : string) :
  let t := clean_text s in
  (forall pat, In pat escape_patterns -> contains pat t = false) /\
  contains (cr ++ nl) t = false /\
  contains "  " t = false /\
  (forall line, In line (split_lines t) -> strip line = line).
Proof.
  intro t. destruct (clean_text_inv s) as [Hc Hp]. fold t in Hc, Hp.
  split; [exact Hp|split; [exact (chain_no_crlf t nl_c Hc)|split]].
  - exact (chain_no_double_space t nl_c Hc).
  - intros line Hl.
    pose proof (split_aux_no_sep nl_c t "" line eq_refl Hl) as Hnl.
    pose proof (split_aux_chain t "" line Hc Hl) as Hch.
    unfold strip. rewrite (chain_lstrip line Hnl Hch).
    exact (chain_rstrip line nl_c Hnl Hch).
Qed.

(** ** The two advice reports read the same scores where both look *)

Lemma rec_text_loop_support (p : payload) : forall fm d,
  (forall field sd, In (field, sd) fm -> ends_with "_Numeric" field = false) ->
  rec_text_loop p fm d = support_text_loop p fm d.
Proof.
  induction fm as [|[field sd] rest IH]; intros d Hfm; [reflexivity|].
  cbn [rec_text_loop support_text_loop].
  assert (Hrest : forall f s, In (f, s) rest -> ends_with "_Numeric" f = false)
    by (intros f s H; apply (Hfm f s); right; exact H).
  destruct (lookup field p) as [v|]; [|apply IH; exact Hrest].
  destruct (text_score v) as [r|].
  - destruct r as [z|e]; cbn [bind]; [apply IH; exact Hrest|reflexivity].
  - rewrite (Hfm field sd (or_introl eq_refl)). cbn [andb]. apply IH; exact Hrest.
Qed.

Lemma field_mapping_not_numeric field sd :
  In (field, sd) field_mapping -> ends_with "_Numeric" field = false.
Proof.
  intro H. simpl in H.
  repeat (destruct H as [H|H]; [injection H as <- _; reflexivity|]); destruct H.
Qed.

Lemma numeric_loop_ok_iff (p : payload) : forall nf d,
  (exists d', numeric_loop p nf d = Ok d') <->
  (forall field sd v, In (field, sd) nf -> lookup field p = Some v ->
     exists z, py_int v = Ok z).
Proof.
  induction nf as [|[field sd] rest IH]; intros d; cbn [numeric_loop].
  - split; [intros _ f s v []|intros _; eauto].
  - destruct (lookup field p) as [v|] eqn:El.
    + destruct (py_int v) as [z|e] eqn:Ev; cbn [bind].
      * rewrite IH. split.
        -- intros H f s w [Heq|Hin] Hl; [injection Heq as -> ->; rewrite El in Hl;
             injection Hl as <-; eauto|eauto].
        -- intros H f s w Hin Hl. eapply H; [right; exact Hin|exact Hl].
      * split; [intros [d' H]; discriminate|].
        intro H. destruct (H field sd v (or_introl eq_refl) El) as [z Hz]. congruence.
    + rewrite IH. split.
      * intros H f s w [Heq|Hin] Hl; [injection Heq as -> ->; congruence|eauto].
      * intros H f s w Hin Hl. eapply H; [right; exact Hin|exact Hl].
Qed.

Lemma numeric_loop_keeps_absent (p : payload) k : forall nf d d',
  numeric_loop p nf d = Ok d' ->
  (forall field, In (field, k) nf -> lookup field p = None) ->
  assoc k d' = assoc k d.
Proof.
  induction nf as [|[field sd] rest IH]; intros d d' E Ha; cbn [numeric_loop] in E.
  - now injection E as <-.
  - assert (Hr : forall f, In (f, k) rest -> lookup f p = None)
      by (intros f Hf; apply Ha; right; exact Hf).
    destruct (lookup field p) as [v|] eqn:El; [|exact (IH d d' E Hr)].
    destruct (py_int v) as [z|e]; cbn [bind] in E; [|discriminate].
    rewrite (IH _ _ E Hr). apply assoc_dict_set_other. intros <-.
    rewrite (Ha field (or_introl eq_refl)) in El. discriminate.
Qed.

Lemma numeric_fields_nodup :
  NoDup (map snd rec_numeric_fields) /\ NoDup (map snd support_numeric_fields).
Proof.
  split; repeat constructor; simpl; intro H;
    repeat (destruct H as [H|H]; [discriminate H|]); exact H.
Qed.

(** A subdomain score read by both numeric loops: the same field. *)
Lemma numeric_same_field (p : payload) (d0 dr ds : scores) field sd :
  numeric_loop p rec_numeric_fields d0 = Ok dr ->
  numeric_loop p support_numeric_fields d0 = Ok ds ->
  In (field, sd) rec_numeric_fields -> In (field, sd) support_numeric_fields ->
  (forall f, In (f, sd) rec_numeric_fields -> f = field) ->
  (forall f, In (f, sd) support_numeric_fields -> f = field) ->
  assoc sd dr = assoc sd ds.
Proof.
  intros Er Es Hr Hs Ur Us. destruct numeric_fields_nodup as [Nr Ns].
  destruct (lookup field p) as [v|] eqn:El.
  - destruct (proj1 (numeric_loop_ok_iff p _ d0) (ex_intro _ ds Es) field sd v Hs El)
      as [z Hz].
    rewrite (numeric_loop_sets _ _ _ _ _ _ _ _ Er Nr Hr El Hz).
    rewrite (numeric_loop_sets _ _ _ _ _ _ _ _ Es Ns Hs El Hz). reflexivity.
  - rewrite (numeric_loop_keeps_absent p sd _ _ _ Er), (numeric_loop_keeps_absent p sd _ _ _ Es);
      [reflexivity| |]; intros f Hf; [rewrite (Us f Hf)|rewrite (Ur f Hf)]; exact El.
Qed.

(** X5: Whenever the score extraction of [create_support_overview_report]
    succeeds, that of [create_concrete_recommendations_report] succeeds
    too, and the two agree on every Structuur and Uitkomsten subdomain
    (the subdomains of the recommendations' [numeric_fields]). *)
Theorem rec_support_scores_agree (p : payload) (ds : scores) :
  support_scores p = Ok ds ->
  exists dr, rec_scores p = Ok dr /\
    forall sd, In sd (map snd rec_numeric_fields) -> assoc sd dr = assoc sd ds.
Proof.
  unfold support_scores, rec_scores. intro E.
  rewrite (rec_text_loop_support p field_mapping [] field_mapping_not_numeric).
  destruct (support_text_loop p field_mapping []) as [d0|e]; cbn [bind] in *; [|discriminate].
  assert (Hok : exists dr, numeric_loop p rec_numeric_fields d0 = Ok dr).
  { apply numeric_loop_ok_iff. intros f s v Hin Hl.
    apply (proj1 (numeric_loop_ok_iff p support_numeric_fields d0) (ex_intro _ ds E) f s v);
      [|exact Hl].
    simpl in Hin |- *. tauto. }
  destruct Hok as [dr Er]. exists dr. split; [exact Er|].
  intros sd Hsd. simpl in Hsd.
  destruct Hsd as [<-|[<-|[<-|[<-|[]]]]];
    (eapply numeric_same_field; [exact Er|exact E|simpl; tauto|simpl; tauto| |]);
    intros f Hf; simpl in Hf;
    repeat (destruct Hf as [Hf|Hf]; [injection Hf; intros; subst; congruence|]);
    destruct Hf.
Qed.

Lemma rec_support_scores_agree_witness :
  support_scores governance_low_payload = Ok [("Visie op passende zorg", 1);
    ("Leiderschap en eigenaarschap", 5); ("Regionale samenwerking", 5);
    ("Tools en platforms", 5); ("Patiëntgericht procesontwerp", 5);
    ("Leren en verbeteren", 5); ("Outcomegericht werken", 5);
    ("Monitoring en besluitvorming", 5)] /\
  exists dr, rec_scores governance_low_payload = Ok dr /\
    assoc "Tools en platforms" dr = Some 5.
Proof.
  assert (E : support_scores governance_low_payload = Ok [("Visie op passende zorg", 1);
    ("Leiderschap en eigenaarschap", 5); ("Regionale samenwerking", 5);
    ("Tools en platforms", 5); ("Patiëntgericht procesontwerp", 5);
    ("Leren en verbeteren", 5); ("Outcomegericht werken", 5);
    ("Monitoring en besluitvorming", 5)]) by (vm_compute; reflexivity).
  split; [exact E|].
  destruct (rec_support_scores_agree _ _ E) as [dr [Hr Ha]].
  exists dr. split; [exact Hr|].
  rewrite (Ha "Tools en platforms") by (simpl; tauto). reflexivity.
Defined.

(** ** [create_score_breakdown_chart] *)

Lemma breakdown_loop_app (p : payload) fm1 fm2 : forall t d,
  breakdown_loop p (fm1 ++ fm2) t d =
  r <- breakdown_loop p fm1 t d ;; breakdown_loop p fm2 (fst r) (snd r).
Proof.
  induction fm1 as [|[field [dom sub]] rest IH]; intros t d; [reflexivity|].
  cbn [app breakdown_loop]. destruct (lookup field p) as [v|]; [|apply IH].
  destruct (py_int v) as [z|e]; [apply IH|reflexivity].
Qed.

Lemma breakdown_loop_ok_iff (p : payload) : forall fm t d,
  (exists r, breakdown_loop p fm t d = Ok r) <->
  (forall field dom sub v, In (field, (dom, sub)) fm -> lookup field p = Some v ->
     exists z, py_int v = Ok z).
Proof.
  induction fm as [|[field [dom sub]] rest IH]; intros t d; cbn [breakdown_loop].
  - split; [intros _ f dm s v []|intros _; eauto].
  - destruct (lookup field p) as [v|] eqn:El.
    + destruct (py_int v) as [z|e] eqn:Ev; cbn [bind].
      * rewrite IH. split.
        -- intros H f dm s w [Heq|Hin] Hl; [injection Heq as -> -> ->; rewrite El in Hl;
             injection Hl as <-; eauto|eauto].
        -- intros H f dm s w Hin Hl. eapply H; [right; exact Hin|exact Hl].
      * split; [intros [r H]; discriminate|].
        intro H. destruct (H field dom sub v (or_introl eq_refl) El) as [z Hz]. congruence.
    + rewrite IH. split.
      * intros H f dm s w [Heq|Hin] Hl; [injection Heq as -> -> ->; congruence|eauto].
      * intros H f dm s w Hin Hl. eapply H; [right; exact Hin|exact Hl].
Qed.

Lemma breakdown_loop_total (p : payload) : forall fm t d t' d',
  breakdown_loop p fm t d = Ok (t', d') ->
  t' = t + fold_right Z.add 0
             (map snd (flat_map (fun '(field, (_, sub)) => field_row p field sub) fm)).
Proof.
  induction fm as [|[field [dom sub]] rest IH]; intros t d t' d' E; cbn [breakdown_loop] in E.
  - injection E as <- _. cbn. lia.
  - cbn [flat_map]. unfold field_row at 1.
    destruct (lookup field p) as [v|]; [|exact (IH _ _ _ _ E)].
    destruct (py_int v) as [z|e]; cbn [bind] in E; [|discriminate].
    rewrite (IH _ _ _ _ E). cbn. lia.
Qed.

Lemma dict_append_tail (d0 : subdomain_dict) dom xs x :
  ~ In dom (map fst d0) ->
  dict_append dom x (d0 ++ tail_of dom xs)%list = (d0 ++ tail_of dom (xs ++ [x]))%list.
Proof.
  induction d0 as [|[k ys] d0 IH]; cbn [map In app]; intro Hn.
  - destruct xs as [|y xs]; cbn; [reflexivity|]. now rewrite String.eqb_refl.
  - cbn [dict_append]. destruct (String.eqb_spec dom k) as [->|Hne]; [tauto|].
    f_equal. apply IH. tauto.
Qed.

(** One domain's fields, run after the entries of earlier domains. *)
Lemma breakdown_block (p : payload) dom : forall fm t d0 xs t' d',
  Forall (fun e => fst (snd e) = dom) fm -> ~ In dom (map fst d0) ->
  breakdown_loop p fm t (d0 ++ tail_of dom xs)%list = Ok (t', d') ->
  d' = (d0 ++ tail_of dom
          (xs ++ flat_map (fun '(field, (_, sub)) => field_row p field sub) fm))%list.
Proof.
  induction fm as [|[field [dm sub]] rest IH]; intros t d0 xs t' d' HF Hn E;
    cbn [breakdown_loop] in E.
  - injection E as _ <-. now rewrite app_nil_r.
  - apply Forall_cons_iff in HF as [Hd HF']. cbn [fst snd] in Hd. subst dm.
    cbn [flat_map]. unfold field_row at 1.
    destruct (lookup field p) as [v|]; [|exact (IH _ _ _ _ _ HF' Hn E)].
    destruct (py_int v) as [z|e]; cbn [bind] in E; [|discriminate].
    rewrite dict_append_tail in E by exact Hn.
    rewrite (IH _ _ _ _ _ HF' Hn E). now rewrite <- app_assoc.
Qed.

Lemma tail_of_keys dom xs k : In k (map fst (tail_of dom xs)) -> k = dom.
Proof. destruct xs; cbn; [tauto|intuition]. Qed.

Lemma flat_tail_of dom xs : flat_map snd (tail_of dom xs) = xs.
Proof. destruct xs; cbn; [reflexivity|now rewrite app_nil_r]. Qed.

Lemma present_scores_domains (p : payload) :
  present_scores p =
  (domain_scores p "Governance" ++ domain_scores p "Structuur" ++
   domain_scores p "Proces" ++ domain_scores p "Uitkomsten & sturing")%list.
Proof.
  unfold present_scores, domain_scores, breakdown_fields. cbn. now rewrite !app_nil_r, <- !app_assoc.
Qed.

(** The first loop on the chart's eight fields: the total and the dict. *)
Lemma breakdown_scores_shape (p : payload) t d :
  breakdown_loop p breakdown_fields 0 [] = Ok (t, d) ->
  t = fold_right Z.add 0 (map snd (present_scores p)) /\
  d = (tail_of "Governance" (domain_scores p "Governance") ++
       tail_of "Structuur" (domain_scores p "Structuur") ++
       tail_of "Proces" (domain_scores p "Proces") ++
       tail_of "Uitkomsten & sturing" (domain_scores p "Uitkomsten & sturing"))%list.
Proof.
  intro E. split; [exact (breakdown_loop_total p _ _ _ _ _ E)|].
  set (G := firstn 2 breakdown_fields). set (S := firstn 2 (skipn 2 breakdown_fields)).
  set (P := firstn 2 (skipn 4 breakdown_fields)). set (U := skipn 6 breakdown_fields).
  assert (Hsplit : breakdown_fields = (G ++ S ++ P ++ U)%list) by reflexivity.
  rewrite Hsplit, breakdown_loop_app in E.
  assert (HG : domain_scores p "Governance" =
               flat_map (fun '(field, (_, sub)) => field_row p field sub) G)
    by (unfold domain_scores, G; cbn; now rewrite !app_nil_r).
  assert (HS : domain_scores p "Structuur" =
               flat_map (fun '(field, (_, sub)) => field_row p field sub) S)
    by (unfold domain_scores, S; cbn; now rewrite !app_nil_r).
  assert (HP : domain_scores p "Proces" =
               flat_map (fun '(field, (_, sub)) => field_row p field sub) P)
    by (unfold domain_scores, P; cbn; now rewrite !app_nil_r).
  assert (HU : domain_scores p "Uitkomsten & sturing" =
               flat_map (fun '(field, (_, sub)) => field_row p field sub) U)
    by (unfold domain_scores, U; cbn; now rewrite !app_nil_r).
  rewrite HG, HS, HP, HU.
  destruct (breakdown_loop p G 0 []) as [[t1 d1]|e] eqn:E1; cbn [bind fst snd] in E; [|discriminate].
  change (@nil (string * list (string * Z))) with ([] ++ tail_of "Governance" [])%list in E1.
  apply breakdown_block in E1;
    [|repeat constructor|intros []]. cbn [app] in E1. subst d1.
  rewrite breakdown_loop_app in E.
  destruct (breakdown_loop p S t1 _) as [[t2 d2]|e] eqn:E2; cbn [bind fst snd] in E; [|discriminate].
  rewrite <- (app_nil_r (tail_of "Governance" _)) in E2.
  change (@nil (string * list (string * Z))) with (tail_of "Structuur" []) in E2.
  apply breakdown_block in E2;
    [|repeat constructor|intro H; apply tail_of_keys in H; discriminate H]. subst d2.
  rewrite breakdown_loop_app in E.
  destruct (breakdown_loop p P t2 _) as [[t3 d3]|e] eqn:E3; cbn [bind fst snd] in E; [|discriminate].
  rewrite <- (app_nil_r (_ ++ tail_of "Structuur" _)) in E3.
  change (@nil (string * list (string * Z))) with (tail_of "Proces" []) in E3.
  apply breakdown_block in E3;
    [|repeat constructor
     |intro H; rewrite map_app, in_app_iff in H;
      destruct H as [H|H]; apply tail_of_keys in H; discriminate H]. subst d3.
  rewrite <- (app_nil_r (_ ++ tail_of "Proces" _)) in E.
  change (@nil (string * list (string * Z))) with (tail_of "Uitkomsten & sturing" []) in E.
  apply breakdown_block in E;
    [|repeat constructor
     |intro H; rewrite !map_app, !in_app_iff in H;
      destruct H as [[H|H]|H]; apply tail_of_keys in H; discriminate H].
  subst d. cbn [app]. now rewrite <- !app_assoc.
Qed.

(** X6: [create_score_breakdown_chart] succeeds exactly when every one of
    its eight numeric fields that is present converts with [int]; its
    total is then the sum of the present fields' scores (a missing field
    counts 0, and no score is clamped), and the highlighted bar and the
    status line are those of that total. *)
Theorem score_breakdown_total (p : payload) :
  ((exists c, create_score_breakdown_chart p = Ok c) <->
   (forall field dom sub v, In (field, (dom, sub)) breakdown_fields ->
      lookup field p = Some v -> exists z, py_int v = Ok z)) /\
  (forall c, create_score_breakdown_chart p = Ok c ->
     let total := fold_right Z.add 0 (map snd (present_scores p)) in
     highlighted c = current_phase total /\ status c = status_text total).
Proof.
  unfold create_score_breakdown_chart. split.
  - rewrite <- (breakdown_loop_ok_iff p breakdown_fields 0 []).
    destruct (breakdown_loop p breakdown_fields 0 []) as [[t d]|e]; cbn [bind].
    + split; intros _; eauto.
    + split; intros [x H]; discriminate.
  - intros c E.
    destruct (breakdown_loop p breakdown_fields 0 []) as [[t d]|e] eqn:El;
      cbn [bind] in E; [|discriminate].
    injection E as <-. destruct (breakdown_scores_shape p t d El) as [-> _].
    split; reflexivity.
Qed.

Lemma concat_domain_rows {A B} (xs : string -> list A) (f : A -> B) : forall l,
  concat (map snd (flat_map (fun dom => match xs dom with
                                         | [] => []
                                         | subs => [(dom, map f subs)]
                                         end) l)) =
  flat_map (fun dom => map f (xs dom)) l.
Proof.
  induction l as [|a l IH]; [reflexivity|].
  cbn [flat_map]. rewrite map_app, concat_app, IH.
  destruct (xs a); cbn [map concat snd]; rewrite ?app_nil_r; reflexivity.
Qed.

(** X7: The domain table of the chart has one header per domain, in the
    order Governance, Structuur, Proces, Uitkomsten & sturing, exactly
    for the domains with a present field; under it the present
    subdomains of that domain in field order, each with its score and
    its colour; all rows together are the present scores in field
    order. *)
Theorem score_breakdown_table (p : payload) (c : breakdown_chart) :
  create_score_breakdown_chart p = Ok c ->
  domain_table c =
    flat_map (fun dom => match domain_scores p dom with
                         | [] => []
                         | subs => [(dom, map (fun '(sub, z) => (sub, z, row_score_color z)) subs)]
                         end) domain_order /\
  concat (map snd (domain_table c)) =
    map (fun '(sub, z) => (sub, z, row_score_color z)) (present_scores p).
Proof.
  unfold create_score_breakdown_chart. intro E.
  destruct (breakdown_loop p breakdown_fields 0 []) as [[t d]|e] eqn:El;
    cbn [bind] in E; [|discriminate].
  injection E as <-. cbn [domain_table].
  destruct (breakdown_scores_shape p t d El) as [_ ->].
  assert (Ht : domain_table_of
      (tail_of "Governance" (domain_scores p "Governance") ++
       tail_of "Structuur" (domain_scores p "Structuur") ++
       tail_of "Proces" (domain_scores p "Proces") ++
       tail_of "Uitkomsten & sturing" (domain_scores p "Uitkomsten & sturing"))%list =
    flat_map (fun dom => match domain_scores p dom with
                         | [] => []
                         | subs => [(dom, map (fun '(sub, z) => (sub, z, row_score_color z)) subs)]
                         end) domain_order).
  { unfold domain_order. cbn [flat_map].
    destruct (domain_scores p "Governance"), (domain_scores p "Structuur"),
      (domain_scores p "Proces"), (domain_scores p "Uitkomsten & sturing"); reflexivity. }
  split; [exact Ht|]. rewrite Ht, concat_domain_rows, present_scores_domains.
  unfold domain_order. cbn [flat_map]. now rewrite !map_app, app_nil_r.
Qed.

Lemma score_breakdown_table_witness :
  exists c, create_score_breakdown_chart governance_low_payload = Ok c /\
    length (domain_table c) = 4%nat.
Proof.
  destruct (create_score_breakdown_chart governance_low_payload) as [c|e] eqn:E;
    [|vm_compute in E; discriminate E].
  exists c. split; [reflexivity|].
  rewrite (proj1 (score_breakdown_table governance_low_payload c E)).
  vm_compute. reflexivity.
Defined.

Lemma matching_subdomains_flat (d : subdomain_dict) (k : Z) :
  matching_subdomains d k = map fst (filter (fun e => snd e =? k) (flat_map snd d)).
Proof.
  induction d as [|[dom subs] d IH]; [reflexivity|].
  unfold matching_subdomains in *. cbn [flat_map snd].
  rewrite filter_app, map_app, IH. f_equal.
  induction subs as [|[sub z] subs IH']; [reflexivity|].
  cbn. destruct (z =? k); cbn; [f_equal|]; exact IH'.
Qed.

Lemma nth_map_seq5 {A} (f : nat -> option A) (i : nat) : (i < 5)%nat ->
  nth i (map f (seq 0 5)) None = f i.
Proof. intro H. do 5 (destruct i as [|i]; [reflexivity|]). lia. Qed.

(** X8: The five bars of the chart: bar [i] (score [i + 1]) carries the
    line "Uw organisatie: ..." exactly when some present field scores
    [i + 1]; the line names the first three such subdomains in field
    order, joined by " • ", and adds " (+n more)" when there are more.
    A subdomain whose score lies outside 1-5 is on no bar. *)
Theorem score_breakdown_bars (p : payload) (c : breakdown_chart) :
  create_score_breakdown_chart p = Ok c ->
  length (bar_labels c) = 5%nat /\
  forall i, (i < 5)%nat ->
    nth i (bar_labels c) None =
    match map fst (filter (fun e => snd e =? Z.of_nat i + 1) (present_scores p)) with
    | [] => None
    | m => Some ("Uw organisatie: " ++ domains_text m)
    end.
Proof.
  unfold create_score_breakdown_chart. intro E.
  destruct (breakdown_loop p breakdown_fields 0 []) as [[t d]|e] eqn:El;
    cbn [bind] in E; [|discriminate].
  injection E as <-. cbn [bar_labels].
  destruct (breakdown_scores_shape p t d El) as [_ Hd].
  split; [reflexivity|]. intros i Hi.
  pose proof (nth_map_seq5 (phase_label d) i Hi) as Hn. cbn [seq map] in Hn. rewrite Hn.
  unfold phase_label. rewrite matching_subdomains_flat, Hd, !flat_map_app, !flat_tail_of.
  now rewrite <- present_scores_domains.
Qed.

Lemma score_breakdown_bars_witness :
  exists c, create_score_breakdown_chart governance_low_payload = Ok c /\
    nth 4 (bar_labels c) None =
    Some "Uw organisatie: Leiderschap en eigenaarschap • Regionale samenwerking • Tools en platforms (+4 more)".
Proof.
  destruct (create_score_breakdown_chart governance_low_payload) as [c|e] eqn:E;
    [|vm_compute in E; discriminate E].
  exists c. split; [reflexivity|].
  rewrite (proj2 (score_breakdown_bars governance_low_payload c E) 4%nat ltac:(lia)).
  vm_compute. reflexivity.
Defined.

(** ** [process_lead] *)

Ltac pl_cases :=
  repeat match goal with
  | |- context [match ?x with Done _ => _ | Raise _ => _ end] =>
      let H := fresh "Hs" in destruct x eqn:H
  | |- context [if ?b then _ else _] =>
      let H := fresh "Hb" in destruct b eqn:H
  end.

(** X9: Before any outside call: a request that is not JSON, or whose JSON
    body is falsy (an empty object, [null], [0], [""], ...), gets status
    400, and nothing else does; every status is 200, 400 or 500; and no
    outside effect happens (not even the token request) unless the body
    is a non-empty JSON object, so a malformed body or a JSON document
    that is not an object is answered 500 without any call. *)
Theorem process_lead_rejects {exn token ppt} (E : services exn token ppt) (req : request) :
  (fst (snd (process_lead E req)) = 400 <->
     req = NotJson \/ exists b, req = JsonRequest b /\ json_truthy (other_truthy E) b = false) /\
  In (fst (snd (process_lead E req))) [200; 400; 500] /\
  (fst (process_lead E req) = [] <->
     ~ exists p, req = JsonRequest (JDict p) /\ p <> []).
Proof.
  destruct req as [| |[[|kv p]|v]]; cbn [process_lead json_truthy negb].
  - cbn. split; [tauto|]. split; [tauto|]. split; [|reflexivity].
    intros _ [p [H _]]; discriminate.
  - cbn. split; [split; [discriminate|intros [H|[b [H _]]]; discriminate]|].
    split; [tauto|]. split; [|reflexivity]. intros _ [p [H _]]; discriminate.
  - cbn. split; [split; [intros _; right; exists (JDict []); split; reflexivity|reflexivity]|].
    split; [tauto|]. split; [|reflexivity].
    intros _ [p [H Hp]]. injection H as <-. apply Hp; reflexivity.
  - unfold respond, crash. pl_cases; cbn;
      (split; [split; [discriminate|intros [H|[b [H Hb']]]; [discriminate|]];
               injection H as <-; discriminate Hb'|]);
      (split; [tauto|]);
      (split; [discriminate|intro H; exfalso; apply H; exists (kv :: p); split;
               [reflexivity|discriminate]]).
  - destruct (truthy (other_truthy E) v) eqn:Hv; cbn.
    + split; [split; [discriminate|intros [H|[b [H Hb']]]; [discriminate|]];
        injection H as <-; cbn in Hb'; congruence|].
      split; [tauto|]. split; [|reflexivity]. intros _ [p [H _]]; discriminate.
    + split; [split; [intros _; right; exists (JValue v); split; [reflexivity|exact Hv]|reflexivity]|].
      split; [tauto|]. split; [|reflexivity]. intros _ [p [H _]]; discriminate.
Qed.

(** X10: [process_lead] answers 200 exactly when the body is a non-empty
    JSON object, the token request, the template download, the
    placeholder replacement, the charts, the temporary file, its save and
    its close all return normally, and the upload reports success. *)
Theorem process_lead_success {exn token ppt} (E : services exn token ppt) (req : request) :
  fst (snd (process_lead E req)) = 200 <->
  exists p tok template ppt1 ppt2 path u1 u2,
    req = JsonRequest (JDict p) /\ p <> [] /\
    get_access_token E = Done tok /\ download_ppt_template E tok = Done template /\
    replace_placeholders E template p = Done ppt1 /\ add_charts E ppt1 p = Done ppt2 /\
    named_temporary_file E = Done path /\ save E ppt2 path = Done u1 /\ close E = Done u2 /\
    up_success (upload_to_zoho_workdrive E path tok) = true.
Proof.
  split.
  - destruct req as [| |[[|kv p]|v]]; cbn [process_lead json_truthy negb];
      [cbn; discriminate|cbn; discriminate|cbn; discriminate| |
       destruct (truthy (other_truthy E) v); cbn; discriminate].
    unfold respond, crash. pl_cases; cbn; try discriminate;
      intros _; do 8 eexists; repeat split; try eassumption; try reflexivity; discriminate.
  - intros (p & tok & template & ppt1 & ppt2 & path & u1 & u2 & -> & Hp & H1 & H2 & H3 & H4 &
            H5 & H6 & H7 & H8).
    destruct p as [|kv p]; [congruence|]. cbn [process_lead json_truthy negb].
    rewrite H1, H2, H3, H4, H5, H6, H7. unfold respond. rewrite H8.
    destruct (_ && _); reflexivity.
Qed.

Lemma process_lead_success_witness :
  fst (snd (process_lead demo_services (JsonRequest (JDict lead_payload)))) = 200.
Proof.
  apply (proj2 (process_lead_success demo_services (JsonRequest (JDict lead_payload)))).
  do 8 eexists. repeat split; try reflexivity; discriminate.
Defined.

(** X11: Every 200 answer comes from a non-empty JSON object for which
    the token request returned [tok] and the temporary file [path], and
    whose upload [r = upload_to_zoho_workdrive(path, tok)] reported
    success.  The body is [success: True] with the payload's [Lead_ID]
    and that [r]; [attach_file_to_lead(lead_id, r['download_url'], tok)]
    is called exactly once when [Lead_ID] and the [download_url] are both
    truthy, and never otherwise; its result is the body's attachment
    result, and the message is "PPT processed and uploaded successfully"
    followed by " and attached to Lead record" or " but failed to
    attach to Lead record" as it succeeded, or by " but no Lead_ID
    provided for attachment" when it was not called. *)
Theorem process_lead_attachment {exn token ppt} (E : services exn token ppt) (req : request)
    (ev : list event) (s : Z) (b : response exn) :
  process_lead E req = (ev, (s, b)) -> s = 200 ->
  exists p tok path,
    req = JsonRequest (JDict p) /\ get_access_token E = Done tok /\
    named_temporary_file E = Done path /\
    let r := upload_to_zoho_workdrive E path tok in
    let lead_id := match lookup "Lead_ID" p with Some v => v | None => VNone end in
    let attach := truthy (other_truthy E) lead_id &&
                  truthy (other_truthy E) (up_download_url r) in
    let a := attach_file_to_lead E lead_id (up_download_url r) tok in
    up_success r = true /\
    count_occ event_eq_dec ev EAttach = (if attach then 1%nat else 0%nat) /\
    b = RProcessed true
          ("PPT processed and uploaded successfully" ++
           (if attach then
              (if at_success a then " and attached to Lead record"
               else " but failed to attach to Lead record")
            else " but no Lead_ID provided for attachment"))
          lead_id (Some r) (if attach then Some a else None).
Proof.
  destruct req as [| |[[|kv p]|v]]; cbn [process_lead json_truthy negb];
    [intros H; injection H as _ <- _; discriminate
    |intros H; injection H as _ <- _; discriminate
    |intros H; injection H as _ <- _; discriminate
    |
    |destruct (truthy (other_truthy E) v); intros H; injection H as _ <- _; discriminate].
  unfold respond, crash, remove_temp_file.
  pl_cases; intros H; injection H as <- <- <-; try discriminate; intros _;
    exists (kv :: p); do 2 eexists;
    (split; [reflexivity|split; [reflexivity|split; [reflexivity|]]]); cbn zeta;
    rewrite ?Hb0, ?Hb1; (split; [assumption|]);
    (split; [cbn; rewrite ?Hb0; reflexivity|reflexivity]).
Qed.

Lemma process_lead_attachment_witness :
  exists p tok path,
    JsonRequest (JDict lead_payload) = JsonRequest (JDict p) /\
    get_access_token demo_services = Done tok /\
    named_temporary_file demo_services = Done path.
Proof.
  destruct (process_lead_attachment demo_services (JsonRequest (JDict lead_payload))
              [ETokenRequest; ETemplateDownload; ETempFileCreated; EUpload; ETempFileRemoved; EAttach]
              200
              (@RProcessed string true "PPT processed and uploaded successfully and attached to Lead record"
                 (VStr "12345")
                 (Some (mkUpload true (VStr "https://workdrive.zoho.eu/file/report")
                          "File uploaded successfully"))
                 (Some (mkAttach true "File attached to Lead successfully"))))
    as (p & tok & path & Hreq & Htok & Hpath & _); [vm_compute; reflexivity|reflexivity|].
  exists p, tok, path. split; [exact Hreq|split; [exact Htok|exact Hpath]].
Defined.

(** X12: For a non-empty JSON object: an exception raised by the token
    request, the template download, the placeholder replacement, the
    charts, the temporary file, its save or its close (each step reached
    only when the earlier ones returned) is the answer: status 500 with
    that exception, and then nothing has been uploaded or attached.  When
    every step returned and the upload [r] reports failure, the answer is
    500 with [success: False], the message "Upload failed: " followed by
    [r]'s message, the payload's [Lead_ID], no upload or attachment
    result, and no attachment is attempted. *)
Theorem process_lead_failures {exn token ppt} (E : services exn token ppt)
    (kv : string * pyval) (p : payload) :
  let req := JsonRequest (JDict (kv :: p)) in
  let crashed e := snd (process_lead E req) = (500, RCrash e) /\
                   ~ In EUpload (fst (process_lead E req)) /\
                   ~ In EAttach (fst (process_lead E req)) in
  (forall e, get_access_token E = Raise e -> crashed e) /\
  (forall tok e, get_access_token E = Done tok -> download_ppt_template E tok = Raise e ->
     crashed e) /\
  (forall tok t e, get_access_token E = Done tok -> download_ppt_template E tok = Done t ->
     replace_placeholders E t (kv :: p) = Raise e -> crashed e) /\
  (forall tok t q1 e, get_access_token E = Done tok -> download_ppt_template E tok = Done t ->
     replace_placeholders E t (kv :: p) = Done q1 -> add_charts E q1 (kv :: p) = Raise e ->
     crashed e) /\
  (forall tok t q1 q2 e, get_access_token E = Done tok -> download_ppt_template E tok = Done t ->
     replace_placeholders E t (kv :: p) = Done q1 -> add_charts E q1 (kv :: p) = Done q2 ->
     named_temporary_file E = Raise e -> crashed e) /\
  (forall tok t q1 q2 path e, get_access_token E = Done tok ->
     download_ppt_template E tok = Done t ->
     replace_placeholders E t (kv :: p) = Done q1 -> add_charts E q1 (kv :: p) = Done q2 ->
     named_temporary_file E = Done path -> save E q2 path = Raise e -> crashed e) /\
  (forall tok t q1 q2 path u e, get_access_token E = Done tok ->
     download_ppt_template E tok = Done t ->
     replace_placeholders E t (kv :: p) = Done q1 -> add_charts E q1 (kv :: p) = Done q2 ->
     named_temporary_file E = Done path -> save E q2 path = Done u -> close E = Raise e ->
     crashed e) /\
  (forall tok t q1 q2 path u1 u2, get_access_token E = Done tok ->
     download_ppt_template E tok = Done t ->
     replace_placeholders E t (kv :: p) = Done q1 -> add_charts E q1 (kv :: p) = Done q2 ->
     named_temporary_file E = Done path -> save E q2 path = Done u1 -> close E = Done u2 ->
     up_success (upload_to_zoho_workdrive E path tok) = false ->
     snd (process_lead E req) =
       (500, RProcessed false
               ("Upload failed: " ++ up_message (upload_to_zoho_workdrive E path tok))
               (match lookup "Lead_ID" (kv :: p) with Some v => v | None => VNone end)
               None None) /\
     In EUpload (fst (process_lead E req)) /\ ~ In EAttach (fst (process_lead E req))).
Proof.
  intros req crashed. subst req crashed. cbn [process_lead json_truthy negb].
  unfold respond, crash, remove_temp_file.
  repeat split; intros;
    repeat match goal with H : ?x = _ |- _ =>
      lazymatch x with
      | up_success _ => fail
      | _ => rewrite H in *; clear H
      end end;
    repeat match goal with H : up_success ?r = _ |- _ => rewrite H; clear H end;
    try (destruct (unlink E _)); cbn; intuition discriminate.
Qed.

(** X13: The temporary file: [os.unlink] is attempted exactly when [save]
    returned, and the file is removed only if it was created; it is
    removed exactly when every step up to the save returned and
    [os.unlink] succeeded, and left behind exactly when either [save]
    raised (the answer is then 500 with that exception) or [os.unlink]
    raised.  The status and body never depend on [os.unlink]: its
    failure is swallowed. *)
Theorem process_lead_temp_file {exn token ppt} (E : services exn token ppt) (req : request) :
  let ev := fst (process_lead E req) in
  (In ETempFileRemoved ev -> In ETempFileCreated ev) /\
  (In ETempFileRemoved ev <->
   exists p tok template ppt1 ppt2 path u u',
     req = JsonRequest (JDict p) /\ p <> [] /\ get_access_token E = Done tok /\
     download_ppt_template E tok = Done template /\
     replace_placeholders E template p = Done ppt1 /\ add_charts E ppt1 p = Done ppt2 /\
     named_temporary_file E = Done path /\ save E ppt2 path = Done u /\
     unlink E path = Done u') /\
  (In ETempFileCreated ev /\ ~ In ETempFileRemoved ev <->
   exists p tok template ppt1 ppt2 path,
     req = JsonRequest (JDict p) /\ p <> [] /\ get_access_token E = Done tok /\
     download_ppt_template E tok = Done template /\
     replace_placeholders E template p = Done ppt1 /\ add_charts E ppt1 p = Done ppt2 /\
     named_temporary_file E = Done path /\
     ((exists e, save E ppt2 path = Raise e /\ snd (process_lead E req) = (500, RCrash e)) \/
      (exists u e, save E ppt2 path = Done u /\ unlink E path = Raise e))) /\
  (forall f, snd (process_lead (with_unlink E f) req) = snd (process_lead E req)).
Proof.
  intro ev. subst ev. split; [|split; [|split]].
  - destruct req as [| |[[|kv p]|v]]; cbn [process_lead json_truthy negb];
      [| | | unfold respond, crash, remove_temp_file; pl_cases
           | destruct (truthy (other_truthy E) v)]; cbn; intuition discriminate.
  - destruct req as [| |[[|kv p]|v]]; cbn [process_lead json_truthy negb];
      [| | | unfold respond, crash, remove_temp_file; pl_cases
           | destruct (truthy (other_truthy E) v)]; cbn;
      (split;
       [intro Hr; first [exfalso; intuition discriminate
                        |do 8 eexists; repeat split; try eassumption; discriminate]
       |intros (p' & tok' & tp' & q1 & q2 & path' & uu & uu' & Hreq & Hp' & H1 & H2 & H3 & H4 &
                H5 & H6 & H7);
        first [discriminate Hreq
              |injection Hreq as <-;
               first [congruence|exfalso; now apply Hp'|tauto]]]).
  - destruct req as [| |[[|kv p]|v]]; cbn [process_lead json_truthy negb];
      [| | | unfold respond, crash, remove_temp_file; pl_cases
           | destruct (truthy (other_truthy E) v)]; cbn;
      (split;
       [intros [Hc Hr];
        first [exfalso; intuition discriminate
              |do 6 eexists; repeat split; try eassumption;
               first [discriminate
                     |left; eexists; split; [eassumption|reflexivity]
                     |right; do 2 eexists; split; eassumption]]
       |intros (p' & tok' & tp' & q1 & q2 & path' & Hreq & Hp' & H1 & H2 & H3 & H4 & H5 &
                [(e' & H6 & H7)|(uu & e' & H6 & H7)]);
        first [discriminate Hreq
              |injection Hreq as <-;
               first [congruence|exfalso; now apply Hp'|split; [tauto|intuition discriminate]]]]).
  - intro f. destruct req as [| |[[|kv p]|v]]; cbn [process_lead json_truthy negb];
      [reflexivity|reflexivity|reflexivity| |reflexivity].
    unfold with_unlink, respond, crash, remove_temp_file; cbn [get_access_token
      download_ppt_template replace_placeholders add_charts named_temporary_file save close
      unlink upload_to_zoho_workdrive attach_file_to_lead other_truthy].
    pl_cases; try reflexivity;
      repeat match goal with |- context [match ?x with Done _ => _ | Raise _ => _ end] =>
        destruct x end; reflexivity.
Qed.

Lemma subdomain_fields_match :
  map (fun '(dom, sub, field) => (field, (dom, sub))) subdomain_data_fields = breakdown_fields.
Proof. reflexivity. Qed.

Lemma subdomain_data_loop_ok_iff (p : payload) : forall l,
  (exists d, subdomain_data_loop p l = Ok d) <->
  (forall dom sub field, In (dom, sub, field) l ->
     exists z, py_int (get_or_zero field p) = Ok z).
Proof.
  induction l as [|[[dom sub] field] rest IH]; cbn [subdomain_data_loop].
  - split; [intros _ d s f []|eauto].
  - destruct (py_int (get_or_zero field p)) as [z|e] eqn:Ev; cbn [bind].
    + destruct (subdomain_data_loop p rest) as [d|e] eqn:Er; cbn [bind].
      * split; [|eauto]. intros _ d' s' f' [H|H].
        -- injection H; intros; subst. eauto.
        -- assert (Hr : exists d0, Ok d = Ok d0) by eauto.
           pose proof (proj1 IH Hr) as HR. eauto.
      * split; [intros [d' H]; discriminate|]. intros H.
        assert (Hr := proj2 IH ltac:(intros d' s' f' Hin; apply (H d' s' f'); right; exact Hin)).
        destruct Hr as [d0 Hd0]. discriminate.
    + split; [intros [d' H]; discriminate|]. intros H.
      destruct (H dom sub field (or_introl eq_refl)) as [z Hz]. congruence.
Qed.

Lemma subdomain_data_loop_nth (p : payload) : forall l d,
  subdomain_data_loop p l = Ok d ->
  length d = length l /\
  forall i dom sub field, nth_error l i = Some (dom, sub, field) ->
    nth_error d i = Some (dom, sub, score_or_zero p field).
Proof.
  induction l as [|[[dom sub] field] rest IH]; intros d E; cbn [subdomain_data_loop] in E.
  - injection E; intros; subst. split; [reflexivity|]. intros [|i]; discriminate.
  - destruct (py_int (get_or_zero field p)) as [z|e] eqn:Ev; cbn [bind] in E; [|discriminate].
    destruct (subdomain_data_loop p rest) as [d'|e] eqn:Er; cbn [bind] in E; [|discriminate].
    injection E; intros; subst. destruct (IH d' eq_refl) as [Hl Hn].
    split; [cbn; rewrite Hl; reflexivity|].
    intros [|i] dm s f H; cbn in H |- *.
    + injection H; intros; subst. unfold score_or_zero. rewrite Ev. reflexivity.
    + exact (Hn i dm s f H).
Qed.

Lemma subdomain_rows_nth : forall data i,
  exists rows, subdomain_rows i data = Ok rows /\ length rows = length data /\
  forall k dom sub s, nth_error data k = Some (dom, sub, s) ->
    exists r, nth_error rows k = Some r /\ sr_index r = (i + k + 1)%nat /\
      sr_domain r = dom /\ sr_subdomain r = sub /\ sr_score r = z_to_string s /\
      get_score_color (VInt s) = Ok (sr_color r).
Proof.
  induction data as [|[[dom sub] s] rest IH]; intros i; cbn [subdomain_rows].
  - exists []. split; [reflexivity|]. split; [reflexivity|]. intros [|k]; discriminate.
  - destruct (IH (S i)) as [rows [Er [Hl Hn]]].
    unfold get_score_color at 1. cbn [py_int bind]. rewrite Er. cbn [bind].
    eexists. split; [reflexivity|]. split; [cbn; rewrite Hl; reflexivity|].
    intros [|k] dm sb sc H; cbn in H.
    + injection H; intros; subst. eexists. split; [reflexivity|].
      cbn. repeat split; lia.
    + destruct (Hn k dm sb sc H) as [r Hr]. exists r. cbn [nth_error].
      replace (i + S k + 1)%nat with (S i + k + 1)%nat by lia. exact Hr.
Qed.

(** X14 (create_domain_subdomain_report): the slide-6 table is drawn
    exactly when the slide-4 breakdown chart is. It then has eight rows,
    numbered 1 to 8 in [subdomain_data] order. Row k shows its domain and
    subdomain, [str(int(payload.get(field, 0)))] and that score's
    [get_score_color]. A field absent from the payload shows "0" in gray
    ("#6c757d"). Each row names the same domain and subdomain as the
    chart's field mapping, and for a present field the chart lists the
    same (subdomain, score). *)
Theorem domain_subdomain_report_rows (p : payload) :
  ((exists rows, create_domain_subdomain_report p = Ok rows) <->
   (exists c, create_score_breakdown_chart p = Ok c)) /\
  (forall rows, create_domain_subdomain_report p = Ok rows ->
     length rows = 8%nat /\
     forall i domain subdomain field,
       nth_error subdomain_data_fields i = Some (domain, subdomain, field) ->
       exists r, nth_error rows i = Some r /\
         sr_index r = S i /\ sr_domain r = domain /\ sr_subdomain r = subdomain /\
         sr_score r = z_to_string (score_or_zero p field) /\
         get_score_color (VInt (score_or_zero p field)) = Ok (sr_color r) /\
         (lookup field p = None -> sr_score r = "0" /\ sr_color r = "#6c757d") /\
         In (field, (domain, subdomain)) breakdown_fields /\
         (forall v, lookup field p = Some v ->
            field_row p field subdomain = [(subdomain, score_or_zero p field)])).
Proof.
  unfold create_domain_subdomain_report. split.
  - rewrite (proj1 (score_breakdown_total p)).
    destruct (subdomain_data_loop p subdomain_data_fields) as [d|e] eqn:Ed; cbn [bind].
    + split; [|intros _; destruct (subdomain_rows_nth d 0) as [r [Hr _]]; eauto].
      intros _ field dom sub v Hin Hl.
      assert (Hok : exists d0, subdomain_data_loop p subdomain_data_fields = Ok d0) by eauto.
      rewrite subdomain_data_loop_ok_iff in Hok.
      rewrite <- subdomain_fields_match in Hin. apply in_map_iff in Hin.
      destruct Hin as [[[dm sb] f] [Heq Hin]]. injection Heq; intros; subst.
      destruct (Hok _ _ _ Hin) as [z Hz]. unfold get_or_zero in Hz. rewrite Hl in Hz. eauto.
    + split; [intros [r Hr]; discriminate|]. intros H.
      assert (Hok : exists d0, subdomain_data_loop p subdomain_data_fields = Ok d0).
      { apply subdomain_data_loop_ok_iff. intros dm sb f Hin.
        unfold get_or_zero. destruct (lookup f p) as [v|] eqn:Hl; [|eexists; reflexivity].
        apply (H f dm sb v); [|exact Hl].
        rewrite <- subdomain_fields_match. apply in_map_iff.
        exists (dm, sb, f). split; [reflexivity|exact Hin]. }
      destruct Hok as [d0 Hd0]. congruence.
  - intros rows E.
    destruct (subdomain_data_loop p subdomain_data_fields) as [d|e] eqn:Ed; cbn [bind] in E;
      [|discriminate].
    destruct (subdomain_data_loop_nth p _ d Ed) as [Hld Hnd].
    destruct (subdomain_rows_nth d 0) as [rows' [Er [Hlr Hnr]]].
    rewrite E in Er. injection Er; intros; subst rows'.
    split; [rewrite Hlr, Hld; reflexivity|].
    intros i dom sub field Hi.
    destruct (Hnr i dom sub (score_or_zero p field) (Hnd i dom sub field Hi))
      as [r [Hr [Hidx [Hdom [Hsub [Hsc Hcol]]]]]].
    exists r. split; [exact Hr|]. split; [rewrite Hidx; lia|].
    split; [exact Hdom|]. split; [exact Hsub|]. split; [exact Hsc|]. split; [exact Hcol|].
    assert (Hin : In (dom, sub, field) subdomain_data_fields) by (eapply nth_error_In; exact Hi).
    split; [|split].
    + intros Hl. unfold score_or_zero, get_or_zero in Hsc, Hcol. rewrite Hl in Hsc, Hcol.
      cbn in Hsc, Hcol. injection Hcol; intros Hc. split; [exact Hsc|symmetry; exact Hc].
    + rewrite <- subdomain_fields_match. apply in_map_iff.
      exists (dom, sub, field). split; [reflexivity|exact Hin].
    + intros v Hl. unfold field_row, score_or_zero, get_or_zero. rewrite Hl.
      assert (Hok : exists d0, subdomain_data_loop p subdomain_data_fields = Ok d0) by eauto.
      rewrite subdomain_data_loop_ok_iff in Hok. destruct (Hok _ _ _ Hin) as [z Hz].
      unfold get_or_zero in Hz. rewrite Hl in Hz. rewrite Hz. reflexivity.
Qed.

Lemma for_existing_err {slide} (work : nat -> slide -> result slide) (e : pyexc) :
  forall targets (slides : list slide), NoDup targets ->
  (for_existing_slides work targets slides = Err e <->
   exists pre i post s, targets = (pre ++ i :: post)%list /\
     nth_error slides i = Some s /\ work i s = Err e /\
     forall j t, In j pre -> nth_error slides j = Some t -> exists t', work j t = Ok t').
Proof.
  induction targets as [|i0 rest IH]; intros slides Hnd; cbn [for_existing_slides].
  - split; [discriminate|]. intros (pre & i & post & s & Ht & _).
    destruct pre; discriminate.
  - apply NoDup_cons_iff in Hnd as [Hnin Hnd'].
    assert (Hnone_case :
      nth_error slides i0 = None ->
      (for_existing_slides work rest slides = Err e <->
       exists pre i post s, i0 :: rest = (pre ++ i :: post)%list /\
         nth_error slides i = Some s /\ work i s = Err e /\
         forall j t, In j pre -> nth_error slides j = Some t -> exists t', work j t = Ok t')).
    { intros Hn. rewrite (IH slides Hnd'). split.
      - intros (pre & i & post & s & Ht & Hs & Hw & Hpre).
        exists (i0 :: pre), i, post, s. rewrite Ht. split; [reflexivity|].
        split; [exact Hs|]. split; [exact Hw|].
        intros j t [<-|Hj] Hjt; [congruence|exact (Hpre j t Hj Hjt)].
      - intros ([|j pre] & i & post & s & Ht & Hs & Hw & Hpre); cbn in Ht.
        + injection Ht; intros; subst. congruence.
        + injection Ht; intros Hr Hj; subst j.
          exists pre, i, post, s. split; [exact Hr|]. split; [exact Hs|]. split; [exact Hw|].
          intros j t Hj Hjt. apply (Hpre j t); [right; exact Hj|exact Hjt]. }
    destruct (Nat.ltb_spec i0 (length slides)) as [Hlt|Hge].
    2:{ apply Hnone_case. apply nth_error_None. exact Hge. }
    destruct (nth_error slides i0) as [s0|] eqn:Es0; [|exact (Hnone_case eq_refl)].
    destruct (work i0 s0) as [s0'|e'] eqn:Ew; cbn [bind].
    + rewrite (IH _ Hnd'). split.
      * intros (pre & i & post & s & Ht & Hs & Hw & Hpre).
        assert (Hi : i <> i0) by (intros ->; apply Hnin; rewrite Ht; apply in_or_app; right; left; reflexivity).
        rewrite nth_error_set_nth_other in Hs by exact Hi.
        exists (i0 :: pre), i, post, s. rewrite Ht. split; [reflexivity|].
        split; [exact Hs|]. split; [exact Hw|].
        intros j t [<-|Hj] Hjt; [rewrite Es0 in Hjt; injection Hjt; intros <-; eauto|].
        apply (Hpre j t Hj). rewrite nth_error_set_nth_other; [exact Hjt|].
        intros ->. apply Hnin. rewrite Ht. apply in_or_app; left; exact Hj.
      * intros ([|j pre] & i & post & s & Ht & Hs & Hw & Hpre); cbn in Ht.
        -- injection Ht; intros; subst. congruence.
        -- injection Ht; intros Hr Hj; subst j.
           assert (Hi : i <> i0) by (intros ->; apply Hnin; rewrite Hr; apply in_or_app; right; left; reflexivity).
           exists pre, i, post, s. split; [exact Hr|].
           split; [rewrite nth_error_set_nth_other by exact Hi; exact Hs|]. split; [exact Hw|].
           intros j t Hj Hjt. rewrite nth_error_set_nth_other in Hjt.
           ++ apply (Hpre j t); [right; exact Hj|exact Hjt].
           ++ intros ->. apply Hnin. rewrite Hr. apply in_or_app; left; exact Hj.
    + split.
      * intros He. injection He; intros <-.
        exists [], i0, rest, s0. split; [reflexivity|]. split; [exact Es0|]. split; [exact Ew|].
        intros j t [].
      * intros ([|j pre] & i & post & s & Ht & Hs & Hw & Hpre); cbn in Ht.
        -- injection Ht; intros; subst. congruence.
        -- injection Ht; intros _ Hj; subst j.
           destruct (Hpre i0 s0 (or_introl eq_refl) Es0) as [t' Ht']. congruence.
Qed.



(** X15 (add_charts_to_slides, replace_placeholders): the chart step
    (targets 3 to 7) and the placeholder loop (targets 0, 3, 8) raise
    exactly when the step of some existing target slide raises. The
    exception raised is then that of the first such target in the
    order of the code: the steps of all earlier existing targets
    succeeded, and the slide it failed on is the template's own. *)
Theorem slide_loops_first_error {slide} (add_chart replace_in : nat -> slide -> result slide)
    (slides : list slide) (e : pyexc) :
  (add_charts_to_slides add_chart slides = Err e <->
   exists pre i post s, [3; 4; 5; 6; 7]%nat = (pre ++ i :: post)%list /\
     nth_error slides i = Some s /\ add_chart i s = Err e /\
     forall j t, In j pre -> nth_error slides j = Some t -> exists t', add_chart j t = Ok t') /\
  (replace_placeholders_slides replace_in slides = Err e <->
   exists pre i post s, [0; 3; 8]%nat = (pre ++ i :: post)%list /\
     nth_error slides i = Some s /\ replace_in i s = Err e /\
     forall j t, In j pre -> nth_error slides j = Some t -> exists t', replace_in j t = Ok t').
Proof.
  unfold add_charts_to_slides, replace_placeholders_slides.
  split; apply for_existing_err; repeat constructor; cbn; lia.
Qed.
